(** * Bank_Transaction_System backend: bootstrap, database connector, HTTP listener

    A shallow embedding of the three JavaScript files of the repository

    - [server.js] with the database connection (the unnamed entry point),
    - [backend/server.js] (the entry point without it),
    - [src/Database/db.js] ([ConnectDB]),

    over a model of what they call: the Express application object and its
    router, [express.json()], [res.send], Node's module cache, the promise
    returned by [mongoose.connect] and the listener of [app.listen], with
    Node's check of the port at the call.  The configuration loader [example.env.js] is not among the sources; it is
    modelled from the specification and marked as such. *)

From Stdlib Require Import String Ascii List Bool Arith Lia.
From stdpp Require Import base option gmap strings list.
Import ListNotations.
Local Open Scope string_scope.

(** ** Strings as JavaScript uses them here *)

Module Str.

(** [String.prototype.toLowerCase] on the characters that matter when the
    result is compared with an ASCII literal. *)
Definition lower_ascii (c : ascii) : ascii :=
  let n := nat_of_ascii c in
  if ((65 <=? n) && (n <=? 90))%nat then ascii_of_nat (n + 32) else c.

Definition upper_ascii (c : ascii) : ascii :=
  let n := nat_of_ascii c in
  if ((97 <=? n) && (n <=? 122))%nat then ascii_of_nat (n - 32) else c.

Fixpoint lower (s : string) : string :=
  match s with
  | EmptyString => EmptyString
  | String c s' => String (lower_ascii c) (lower s')
  end.

Fixpoint upper (s : string) : string :=
  match s with
  | EmptyString => EmptyString
  | String c s' => String (upper_ascii c) (upper s')
  end.

(** White space of a regular expression's [\s] and of [trim], within the
    Latin-1 characters a header value is made of. *)
Definition js_space (c : ascii) : bool :=
  let n := nat_of_ascii c in
  (((9 <=? n) && (n <=? 13)) || (n =? 32) || (n =? 160))%nat.

Definition is_sp (c : ascii) : bool := (nat_of_ascii c =? 32)%nat.

Fixpoint drop_while (p : ascii -> bool) (s : string) : string :=
  match s with
  | EmptyString => EmptyString
  | String c s' => if p c then drop_while p s' else s
  end.

Definition strip (p : ascii -> bool) (s : string) : string :=
  String.rev (drop_while p (String.rev (drop_while p s))).

Definition trim (s : string) : string := strip js_space s.

(** [s.split(c)]: the pieces between the occurrences of [c]; one piece
    (the empty one) for the empty string. *)
Fixpoint split (c : ascii) (s : string) : list string :=
  match s with
  | EmptyString => [EmptyString]
  | String d s' =>
      if Ascii.eqb c d then EmptyString :: split c s'
      else match split c s' with
           | [] => [String d EmptyString]
           | piece :: pieces => String d piece :: pieces
           end
  end.

(** The part of [s] before the first [c] (all of [s] without one). *)
Definition before (c : ascii) (s : string) : string :=
  match split c s with
  | [] => EmptyString
  | piece :: _ => piece
  end.

End Str.

(** ** HTTP messages *)

(** A request as the application sees it: [req.method] (upper case, as Node
    delivers it), the path and the query string of [req.url], [req.headers]
    (Node lower-cases the names) and the bytes of the entity.  What Node
    answers or drops itself (a message it cannot parse, CONNECT, an upgrade)
    never becomes one. *)
Record Request := mkRequest {
  method : string;
  path : string;
  query : string;
  headers : gmap string string;
  body : string
}.

(** What a response carries.  The pages the framework writes itself (the
    not-found and error pages of its final handler) are not spelled out. *)
Inductive Payload :=
| Text (s : string)
| AllowList (methods : list string)
| ErrorPage.

Record Response := mkResponse {
  status : nat;
  payload : Payload
}.

(** ** Values *)

Inductive JsValue :=
| undefined
| str (s : string)
| object (name : string).

(** [`${v}`] *)
Definition to_string (v : JsValue) : string :=
  match v with
  | undefined => "undefined"
  | str s => s
  | object _ => "[object Object]"
  end.

(** ** What the model takes from the platform

    Library internals that are parameters of the development: every theorem
    holds whatever they are. *)
Class Platform := {
  (** The router's path matcher (path-to-regexp under the application's
      default, non-strict and case-insensitive, routing): pattern, then
      path.  The pattern [/] matches the path [/]. *)
  path_match : string -> string -> bool;
  path_match_root : path_match "/" "/" = true;
  (** body-parser once it has decided to parse an entity: content decoding,
      size limit, charset, strict-mode check and [JSON.parse].  [None]: the
      entity parsed into [req.body]; [Some st]: refused, with an error
      carrying status [st] (400, 413, 415). *)
  read_entity : Request -> option nat;
  (** The application setting ["etag fn"]: the weak entity tag of a body
      (a SHA-1 digest). *)
  etag_fn : string -> string;
  (** What [app.listen] does with a failed bind: Express 5 hands the error
      to the callback ([false]); before, the listener's error event had no
      handler and ended the process ([true]). *)
  listen_error_fatal : bool;
  (** Node's check of the port at the call of [listen]: [Some err] when the
      call throws (the port is a text that reads as a number and is empty,
      not an integer or above 65535), [None] when the bind is started.  With
      no port at all ([undefined]) the call does not throw: the system picks
      a port. *)
  listen_refuses : JsValue -> option string;
  listen_refuses_undefined : listen_refuses undefined = None
}.

(** ** express.json() *)

(** type-is [hasBody]: a Transfer-Encoding header, or a Content-Length that
    is a number; Node refuses a request whose Content-Length is not one
    before the application sees it. *)
Definition has_body (r : Request) : bool :=
  bool_decide (is_Some (headers r !! "transfer-encoding"))
  || bool_decide (is_Some (headers r !! "content-length")).

(** The media type of a Content-Type value: parameters dropped, trimmed,
    lower case. *)
Definition media_type (v : string) : string :=
  Str.lower (Str.trim (Str.before ";"%char v)).

(** type-is against ["application/json"], the parser's default [type]. *)
Definition is_json (r : Request) : bool :=
  match headers r !! "content-type" with
  | Some v => String.eqb (media_type v) "application/json"
  | None => false
  end.

(** The middleware [express.json()] returns.  [None] is [next()], [Some st]
    is [next(err)] with [err.status = st]. *)
Definition express_json `{Platform} (r : Request) : option nat :=
  if negb (has_body r) then None
  else if negb (is_json r) then None
  else read_entity r.

(** ** res.send and the freshness of a conditional request *)

(** A header value is truthy when it is there and not empty. *)
Definition truthy (o : option string) : bool :=
  match o with
  | Some s => negb (String.eqb s "")
  | None => false
  end.

(** fresh's test of Cache-Control: a comma-separated element that is
    [no-cache] up to white space. *)
Definition no_cache (v : string) : bool :=
  existsb (fun piece => String.eqb (Str.trim piece) "no-cache") (Str.split ","%char v).

(** fresh's [parseTokenList]: the comma-separated elements, without the
    spaces around them. *)
Definition parseTokenList (s : string) : list string :=
  map (Str.strip Str.is_sp) (Str.split ","%char s).

Definition etag_matches (etag noneMatch : string) : bool :=
  existsb (fun m => String.eqb m etag
                    || String.eqb m ("W/" +:+ etag)
                    || String.eqb ("W/" +:+ m) etag)
          (parseTokenList noneMatch).

(** [fresh(reqHeaders, resHeaders)] for a response that carries the entity
    tag [etag] and no Last-Modified header (nothing here sets one, so a
    request with If-Modified-Since alone is stale). *)
Definition fresh (reqHeaders : gmap string string) (etag : string) : bool :=
  let modifiedSince := reqHeaders !! "if-modified-since" in
  let noneMatch := reqHeaders !! "if-none-match" in
  if negb (truthy modifiedSince) && negb (truthy noneMatch) then false
  else if match reqHeaders !! "cache-control" with
          | Some cc => no_cache cc
          | None => false
          end then false
  else match noneMatch with
       | Some nm =>
           if String.eqb nm "" then false
           else if String.eqb nm "*" then true
           else if String.eqb etag "" then false
           else etag_matches etag nm
       | None => false
       end.

(** The getter [req.fresh], for a response whose status is [st]. *)
Definition req_fresh (req : Request) (st : nat) (etag : string) : bool :=
  if negb (String.eqb (method req) "GET" || String.eqb (method req) "HEAD")
  then false
  else if (((200 <=? st) && (st <? 300)) || (st =? 304))%nat
       then fresh (headers req) etag
       else false.

(** [res.send(chunk)] for a string, on a response whose status nobody set
    (200): the entity tag is generated, a fresh request turns the status
    into 304, a 204 or 304 loses its body, and HEAD gets none. *)
Definition res_send `{Platform} (req : Request) (chunk : string) : Response :=
  let etag := etag_fn chunk in
  let st := if req_fresh req 200 etag then 304 else 200 in
  let chunk := if ((st =? 204) || (st =? 304))%nat then "" else chunk in
  if String.eqb (method req) "HEAD"
  then mkResponse st (Text "")
  else mkResponse st (Text chunk).

(** ** The application object and its router *)

(** A layer of the router's stack: a middleware mounted by [app.use(fn)]
    (on [/], so on every path), or a route with the verbs it was registered
    for (lower case, as the route keeps them) and its handler.  The one
    handler of this application ends the response itself. *)
Inductive Layer :=
| Use (name : string) (fn : Request -> option nat)
| Route (pattern : string) (verbs : list string) (handler : Request -> Response).

Definition has_verb (verbs : list string) (v : string) : bool :=
  existsb (String.eqb v) verbs.

(** [Route.prototype._handlesMethod]: a route with [get] and without [head]
    takes HEAD as GET. *)
Definition handles_method (verbs : list string) (m : string) : bool :=
  let name := Str.lower m in
  let name := if String.eqb name "head" && negb (has_verb verbs "head")
              then "get" else name in
  has_verb verbs name.

(** [Route.prototype._methods]: what the route offers to OPTIONS. *)
Definition route_methods (verbs : list string) : list string :=
  map Str.upper
      (verbs ++ if has_verb verbs "get" && negb (has_verb verbs "head")
                then ["head"] else []).

(** finalhandler: the status of the error page is the error's own when it is
    a 4xx or 5xx, else 500; with no error it is the not-found page. *)
Definition error_status (st : nat) : nat :=
  if ((400 <=? st) && (st <? 600))%nat then st else 500.

Definition finalhandler (err : option nat) : Response :=
  match err with
  | Some st => mkResponse (error_status st) ErrorPage
  | None => mkResponse 404 ErrorPage
  end.

(** The end of the stack: an OPTIONS request that met routes on its path is
    answered with what they allow, anything else goes to the final handler. *)
Definition done (req : Request) (allow : list string) : Response :=
  if String.eqb (method req) "OPTIONS" && negb (bool_decide (allow = []))
  then mkResponse 200 (AllowList allow)
  else finalhandler None.

(** [router.handle]: the layers in the order of their registration.  A
    middleware passes the request on or fails it; no layer of this
    application handles errors, so a failure goes to the final handler.  A
    route is tried when its path matches: it answers when it handles the
    method, and is passed over otherwise (an OPTIONS request notes what it
    allows). *)
Fixpoint router_handle `{Platform} (stack : list Layer) (req : Request)
    (allow : list string) : Response :=
  match stack with
  | [] => done req allow
  | Use _ fn :: rest =>
      match fn req with
      | None => router_handle rest req allow
      | Some st => finalhandler (Some st)
      end
  | Route pattern verbs handler :: rest =>
      if negb (path_match pattern (path req)) then router_handle rest req allow
      else if handles_method verbs (method req) then handler req
      else router_handle rest req
             (if String.eqb (method req) "OPTIONS"
              then allow ++ route_methods verbs else allow)
  end.

(** [app.handle]: what the server answers to a request. *)
Definition app_handle `{Platform} (stack : list Layer) (req : Request) : Response :=
  router_handle stack req [].

(** ** Configuration, promises *)

(** [process.env[k]] *)
Definition env_get (env : gmap string string) (k : string) : JsValue :=
  match env !! k with
  | Some s => str s
  | None => undefined
  end.

(** What [example.env.js] exports. *)
Record Config := mkConfig {
  PORT : JsValue;
  database_uri : JsValue
}.

(** Modelled from the spec: the configuration loader [example.env.js] is not
    among the sources.  Per the specification it maps the environment (after
    dotenv has merged the [.env] file into it) to the two named values, with
    no validation and no default: an absent variable yields [undefined]. *)
Definition example_env (env : gmap string string) : Config :=
  {| PORT := env_get env "PORT";
     database_uri := env_get env "database_uri" |}.

(** How the promise of [mongoose.connect] settles; a rejection carries the
    error as [`${err}`] renders it. *)
Inductive Settled :=
| Resolved
| Rejected (err : string).

(** How the bind that [app.listen] starts ends. *)
Inductive BindResult :=
| Bound
| BindError (err : string).

Inductive Promise :=
| NoPromise
| Pending
| Fulfilled (v : JsValue)
| RejectedWith (err : string).

(** The server [app.listen] makes: none yet; asked for [port], which Node
    refused at the call (no bind was started); binding; listening; or its
    bind failed. *)
Inductive Listener :=
| Unbound
| Refused (port : JsValue) (err : string)
| Binding (port : JsValue)
| Listening (port : JsValue)
| BindFailed (port : JsValue) (err : string).

(** ** The process: state, observable effects, and a monad for the scripts *)

Inductive Effect :=
| ReadEnv
| AppUse (name : string)
| AppRoute (verb pattern : string)
| Connect (uri : JsValue)
| Listen (port : JsValue)
| Log (line : string)
| Respond (req : Request) (res : Response)
| ProcessDies (reason : string).

Record State := mkState {
  process_env : gmap string string;
  (** [require.cache] for [example.env.js] *)
  module_cache : option Config;
  (** the application's router stack *)
  stack : list Layer;
  (** the promise [mongoose.connect] returned *)
  connection : Promise;
  (** the promise the call [ConnectDB()] returned *)
  ConnectDB_promise : Promise;
  listener : Listener;
  alive : bool;
  (** what the process did, oldest first *)
  trace : list Effect
}.

Definition initial (env : gmap string string) : State :=
  {| process_env := env; module_cache := None; stack := [];
     connection := NoPromise; ConnectDB_promise := NoPromise;
     listener := Unbound; alive := true; trace := [] |}.

(** How a piece of script ends: normally with a value, or by throwing. *)
Inductive Completion (A : Type) :=
| Normal (a : A)
| Throw (err : string).
Arguments Normal {A} a.
Arguments Throw {A} err.

Definition Js (A : Type) : Type := State -> Completion A * State.

#[global] Instance Js_ret : MRet Js := fun A a s => (Normal a, s).

#[global] Instance Js_bind : MBind Js := fun A B k m s =>
  match m s with
  | (Normal a, s') => k a s'
  | (Throw e, s') => (Throw e, s')
  end.

#[global] Instance Js_throw : MThrow string Js := fun A e s => (Throw e, s).

(** [try { m } catch (err) { h err }] *)
Definition try_catch {A} (m : Js A) (h : string -> Js A) : Js A := fun s =>
  match m s with
  | (Normal a, s') => (Normal a, s')
  | (Throw e, s') => h e s'
  end.

Definition emit (e : Effect) : Js unit := fun s =>
  (Normal tt,
   {| process_env := process_env s; module_cache := module_cache s;
      stack := stack s; connection := connection s;
      ConnectDB_promise := ConnectDB_promise s; listener := listener s;
      alive := alive s; trace := trace s ++ [e] |}).

Definition console_log (line : string) : Js unit := emit (Log line).

Definition set_listener (l : Listener) : Js unit := fun s =>
  (Normal tt,
   {| process_env := process_env s; module_cache := module_cache s;
      stack := stack s; connection := connection s;
      ConnectDB_promise := ConnectDB_promise s; listener := l;
      alive := alive s; trace := trace s |}).

Definition set_connection (p : Promise) : Js unit := fun s =>
  (Normal tt,
   {| process_env := process_env s; module_cache := module_cache s;
      stack := stack s; connection := p;
      ConnectDB_promise := ConnectDB_promise s; listener := listener s;
      alive := alive s; trace := trace s |}).

Definition set_ConnectDB_promise (p : Promise) : Js unit := fun s =>
  (Normal tt,
   {| process_env := process_env s; module_cache := module_cache s;
      stack := stack s; connection := connection s;
      ConnectDB_promise := p; listener := listener s;
      alive := alive s; trace := trace s |}).

Definition push_layer (l : Layer) : Js unit := fun s =>
  (Normal tt,
   {| process_env := process_env s; module_cache := module_cache s;
      stack := stack s ++ [l]; connection := connection s;
      ConnectDB_promise := ConnectDB_promise s; listener := listener s;
      alive := alive s; trace := trace s |}).

Definition set_env (env : gmap string string) (s : State) : State :=
  {| process_env := env; module_cache := module_cache s;
     stack := stack s; connection := connection s;
     ConnectDB_promise := ConnectDB_promise s; listener := listener s;
     alive := alive s; trace := trace s |}.

(** The process ends: nothing runs after that. *)
Definition die (reason : string) (s : State) : State :=
  {| process_env := process_env s; module_cache := module_cache s;
     stack := stack s; connection := connection s;
     ConnectDB_promise := ConnectDB_promise s; listener := listener s;
     alive := false; trace := trace s ++ [ProcessDies reason] |}.

(** [require] of [example.env.js], under whatever relative name: the first
    call runs the module, which reads the environment, and caches what it
    exports; a later call returns the cached exports. *)
Definition require_example_env : Js Config := fun s =>
  match module_cache s with
  | Some cfg => (Normal cfg, s)
  | None =>
      let cfg := example_env (process_env s) in
      (Normal cfg,
       {| process_env := process_env s; module_cache := Some cfg;
          stack := stack s; connection := connection s;
          ConnectDB_promise := ConnectDB_promise s; listener := listener s;
          alive := alive s; trace := trace s ++ [ReadEnv] |})
  end.

(** [app.use(fn)], [app.get(pattern, handler)] *)
Definition app_use (name : string) (fn : Request -> option nat) : Js unit :=
  emit (AppUse name) ;; push_layer (Use name fn).

Definition app_get (pattern : string) (handler : Request -> Response) : Js unit :=
  emit (AppRoute "get" pattern) ;; push_layer (Route pattern ["get"] handler).

(** [app.listen(port, callback)]: the server is made and asked to listen on
    [port].  A port that Node refuses makes the call throw; otherwise the
    bind is started, and ends later. *)
Definition app_listen `{Platform} (port : JsValue) : Js unit :=
  emit (Listen port) ;;
  match listen_refuses port with
  | Some err => set_listener (Refused port err) ;; mthrow err
  | None => set_listener (Binding port)
  end.

(** [mongoose.connect(uri)]: the attempt is started and a pending promise
    returned (the function is asynchronous: it reports every failure,
    that of a malformed or absent [uri] too, by rejecting the promise). *)
Definition mongoose_connect (uri : JsValue) : Js unit :=
  emit (Connect uri) ;; set_connection Pending.

(** [await p], once [p] has settled. *)
Definition await (o : Settled) : Js unit :=
  match o with
  | Resolved => mret tt
  | Rejected err => mthrow err
  end.

(** *** src/Database/db.js *)

Definition connected_line : string :=
  "🙌  Server is successfully connected to databasse 🙌".

Definition problem_line (err : string) : string :=
  "❌ Problem in connecting to database ❌ " +:+ err.

(** [ConnectDB], an [async] function, in the two turns it runs in.  The
    call runs it up to its [await]: [mongoose.connect(database_uri)] is
    called and [ConnectDB()] returns its own promise, pending. *)
Definition ConnectDB_call (database_uri : JsValue) : Js unit :=
  mongoose_connect database_uri ;;
  set_ConnectDB_promise Pending.

(** When the awaited promise settles, the rest of the [try] block runs, or
    its [catch]. *)
Definition ConnectDB_resume (o : Settled) : Js JsValue :=
  try_catch
    (await o ;;
     console_log connected_line ;;
     mret undefined)
    (fun err =>
     console_log (problem_line err) ;;
     mret undefined).

(** How an [async] function's promise settles from the completion of its
    body. *)
Definition async_result (c : Completion JsValue) : Promise :=
  match c with
  | Normal v => Fulfilled v
  | Throw err => RejectedWith err
  end.

(** *** The two entry points *)

(** The handler of [GET /]: [(req, res) => { res.send("Hi hi"); }] *)
Definition root_handler `{Platform} (req : Request) : Response :=
  res_send req "Hi hi".

(** [server.js] as the unnamed source file has it, with the database
    connector: its [require]s (the one of [db.js] runs that module, which
    asks for [example.env.js] again), the application, [ConnectDB()], and
    [app.listen]. *)
Definition server_main `{Platform} : Js unit :=
  config ← require_example_env;
  db_config ← require_example_env;
  app_use "jsonParser" express_json ;;
  app_get "/" root_handler ;;
  ConnectDB_call (database_uri db_config) ;;
  app_listen (PORT config).

(** [backend/server.js] *)
Definition backend_server_main `{Platform} : Js unit :=
  config ← require_example_env;
  app_use "jsonParser" express_json ;;
  app_get "/" root_handler ;;
  app_listen (PORT config).

(** Running an entry point in a fresh process; a script that throws (as
    either does when Node refuses the port) ends the process. *)
Definition boot (main : Js unit) (env : gmap string string) : State :=
  match main (initial env) with
  | (Normal _, s) => s
  | (Throw err, s) => die err s
  end.

(** ** The event loop *)

(** What reaches the process after its entry point has run: the connection
    attempt settles, the bind ends, a request comes in, or the environment
    is changed. *)
Inductive Event :=
| ConnectionSettles (o : Settled)
| BindEnds (b : BindResult)
| Incoming (req : Request)
| EnvChanges (env : gmap string string).

(** The callback of [app.listen]:
    [() => { console.log(`Server is running on ${PORT}`) }] *)
Definition listen_callback (port : JsValue) : Js unit :=
  console_log ("Server is running on " +:+ to_string port).

Definition settle (o : Settled) : Promise :=
  match o with
  | Resolved => Fulfilled (object "mongoose")
  | Rejected err => RejectedWith err
  end.

(** The connection attempt settles: [ConnectDB] resumes, and its own promise
    settles from how its body completes.  The entry point kept no reference
    to that promise, so its rejection would be an unhandled one, which ends
    the process. *)
Definition on_connection_settled (o : Settled) (s : State) : State :=
  match connection s with
  | Pending =>
      let (c, s1) := (set_connection (settle o) ;; ConnectDB_resume o) s in
      let s2 := snd (set_ConnectDB_promise (async_result c) s1) in
      match async_result c with
      | RejectedWith err => die err s2
      | _ => s2
      end
  | _ => s
  end.

(** The bind ends: the callback runs when the server listens; a failure is
    handed to the callback too, or ends the process. *)
Definition on_bind_end `{Platform} (b : BindResult) (s : State) : State :=
  match listener s with
  | Binding port =>
      match b with
      | Bound => snd ((set_listener (Listening port) ;; listen_callback port) s)
      | BindError err =>
          let s1 := snd (set_listener (BindFailed port err) s) in
          if listen_error_fatal then die err s1
          else snd (listen_callback port s1)
      end
  | _ => s
  end.

(** A request is answered when the server listens. *)
Definition on_request `{Platform} (req : Request) (s : State) : State :=
  match listener s with
  | Listening _ => snd (emit (Respond req (app_handle (stack s) req)) s)
  | _ => s
  end.

Definition step `{Platform} (s : State) (ev : Event) : State :=
  if negb (alive s) then s
  else match ev with
       | ConnectionSettles o => on_connection_settled o s
       | BindEnds b => on_bind_end b s
       | Incoming req => on_request req s
       | EnvChanges env => set_env env s
       end.

Definition run `{Platform} (s : State) (evs : list Event) : State :=
  fold_left step evs s.

(** What a client that sends [req] now gets: a response when the process
    lives and listens, none otherwise. *)
Definition respond `{Platform} (s : State) (req : Request) : option Response :=
  if alive s
  then match listener s with
       | Listening _ => Some (app_handle (stack s) req)
       | _ => None
       end
  else None.

(** ** Sample data *)

(** body-parser's strict mode on a text: an empty one is taken as [{}];
    otherwise its first character that is not a blank has to open an object
    or an array, or the request fails with 400. *)
Definition json_blank (c : ascii) : bool :=
  let n := nat_of_ascii c in
  ((n =? 32) || (n =? 9) || (n =? 10) || (n =? 13))%nat.

Definition firstchar (text : string) : option ascii :=
  match Str.drop_while json_blank text with
  | EmptyString => None
  | String c _ => Some c
  end.

Definition strict_entity (r : Request) : option nat :=
  if String.eqb (body r) "" then None
  else match firstchar (body r) with
       | Some c => if Ascii.eqb c "{" || Ascii.eqb c "[" then None else Some 400
       | None => Some 400
       end.

(** The check of the port on the decimal notations without sign and
    exponent, read as written: an empty or blank text is refused, digits
    are accepted up to 65535, digits with a fraction when the fraction is
    zero; a text in any other notation counts as accepted here. *)
Definition digit_value (c : ascii) : option N :=
  let n := nat_of_ascii c in
  if ((48 <=? n) && (n <=? 57))%nat then Some (N.of_nat (n - 48)) else None.

Fixpoint digits_value (acc : N) (s : string) : option N :=
  match s with
  | EmptyString => Some acc
  | String c s' =>
      match digit_value c with
      | Some d => digits_value (acc * 10 + d)%N s'
      | None => None
      end
  end.

Definition bad_port : string := "ERR_SOCKET_BAD_PORT".

Definition decimal_port_check (port : JsValue) : option string :=
  match port with
  | str s =>
      let t := Str.trim s in
      if String.eqb t "" then Some bad_port
      else match Str.split "."%char t with
           | [whole] =>
               match digits_value 0 whole with
               | Some n => if (n <=? 65535)%N then None else Some bad_port
               | None => None
               end
           | [whole; fraction] =>
               if String.eqb whole "" && String.eqb fraction "" then None
               else match digits_value 0 whole, digits_value 0 fraction with
                    | Some n, Some f =>
                        if (f =? 0)%N && (n <=? 65535)%N then None
                        else Some bad_port
                    | _, _ => None
                    end
           | _ => None
           end
  | undefined | object _ => None
  end.

(** A platform to run the model on: literal comparison of paths, the strict
    mode check on the entity as it stands (what passes it counts as parsed:
    [JSON.parse] is left out), a stand-in for the digest, the listener of
    Express 5, the check of the port on decimal notations. *)
Definition sample_platform : Platform :=
  {| path_match := String.eqb;
     path_match_root := eq_refl;
     read_entity := strict_entity;
     etag_fn := fun chunk => "W/" +:+ chunk;
     listen_error_fatal := false;
     listen_refuses := decimal_port_check;
     listen_refuses_undefined := eq_refl |}.

Definition get_root : Request :=
  {| method := "GET"; path := "/"; query := ""; headers := ∅; body := "" |}.

Definition get_root_if_none_match : Request :=
  {| method := "GET"; path := "/"; query := "";
     headers := {[ "if-none-match" := "*" ]}; body := "" |}.

Definition head_root : Request :=
  {| method := "HEAD"; path := "/"; query := ""; headers := ∅; body := "" |}.

Definition sample_env : gmap string string :=
  {[ "PORT" := "3000";
     "database_uri" := "mongodb://localhost:27017/Bank_Transaction_System" ]}.

(** A GET of [/] that announces a JSON entity and sends [x]. *)
Definition get_root_malformed_json : Request :=
  {| method := "GET"; path := "/"; query := "";
     headers := {[ "content-type" := "application/json";
                   "content-length" := "1" ]};
     body := "x" |}.

Definition get_root_with_query : Request :=
  {| method := "GET"; path := "/"; query := "verbose=1&lang=en";
     headers := {[ "accept" := "text/plain"; "user-agent" := "curl/8.5.0" ]};
     body := "" |}.

Definition options_root : Request :=
  {| method := "OPTIONS"; path := "/"; query := ""; headers := ∅; body := "" |}.

Definition post_root : Request :=
  {| method := "POST"; path := "/"; query := ""; headers := ∅; body := "" |}.

Definition get_accounts : Request :=
  {| method := "GET"; path := "/accounts"; query := ""; headers := ∅; body := "" |}.

Definition hi_hi : Response := mkResponse 200 (Text "Hi hi").

Definition not_modified : Response := mkResponse 304 (Text "").

(** ** Reading histories and traces *)

(** The line [ConnectDB] ends up logging for a settlement. *)
Definition ConnectDB_line (o : Settled) : string :=
  match o with
  | Resolved => connected_line
  | Rejected err => problem_line err
  end.

Definition is_connection_event (ev : Event) : bool :=
  match ev with
  | ConnectionSettles _ => true
  | _ => false
  end.

(** A history without what the database did. *)
Definition without_connection_events (evs : list Event) : list Event :=
  List.filter (fun ev => negb (is_connection_event ev)) evs.

(** A history in which the connection attempt settles as [o] instead. *)
Definition with_outcome (o : Settled) (ev : Event) : Event :=
  match ev with
  | ConnectionSettles _ => ConnectionSettles o
  | _ => ev
  end.

Definition is_Connect (e : Effect) : bool :=
  match e with
  | Connect _ => true
  | _ => false
  end.

Definition is_ReadEnv (e : Effect) : bool :=
  match e with
  | ReadEnv => true
  | _ => false
  end.

(** The port a listener was asked for. *)
Definition listener_port (l : Listener) : option JsValue :=
  match l with
  | Unbound => None
  | Refused port _ | Binding port | Listening port | BindFailed port _ =>
      Some port
  end.

(** What can be seen of the listener: its state, and whether the process
    lives. *)
Definition listener_view (s : State) : Listener * bool :=
  (listener s, alive s).

(** The process lives, or a failed bind ended it (on a platform where a
    failed bind does that). *)
Definition ended_by_bind_only `{Platform} (s : State) : Prop :=
  alive s = true
  \/ (listen_error_fatal = true
      /\ exists port err, listener s = BindFailed port err).

(** The promise of [ConnectDB()] is pending or fulfilled with [undefined]. *)
Definition never_rejected (s : State) : Prop :=
  ConnectDB_promise s = Pending \/ ConnectDB_promise s = Fulfilled undefined.

(** A GET of [/] that gets through to the handler and is not a fresh
    conditional request. *)
Definition unconditional_GET_root `{Platform} (r : Request) : Prop :=
  method r = "GET"
  /\ path r = "/"
  /\ express_json r = None
  /\ req_fresh r 200 (etag_fn "Hi hi") = false.

(** What has become of the listener when the call of [app.listen] with
    [port] is over. *)
Definition asked_to_listen `{Platform} (port : JsValue) : Listener :=
  match listen_refuses port with
  | Some err => Refused port err
  | None => Binding port
  end.

(** The state in which the entry point with the connector leaves the
    process once [app.listen] has been called with the port (when the call
    threw, the process ends from this state). *)
Definition started_server `{Platform} (env : gmap string string) : State :=
  {| process_env := env;
     module_cache := Some (example_env env);
     stack := [Use "jsonParser" express_json; Route "/" ["get"] root_handler];
     connection := Pending;
     ConnectDB_promise := Pending;
     listener := asked_to_listen (PORT (example_env env));
     alive := true;
     trace := [ReadEnv; AppUse "jsonParser"; AppRoute "get" "/";
               Connect (database_uri (example_env env));
               Listen (PORT (example_env env))] |}.

(** The same for [backend/server.js]. *)
Definition started_backend `{Platform} (env : gmap string string) : State :=
  {| process_env := env;
     module_cache := Some (example_env env);
     stack := [Use "jsonParser" express_json; Route "/" ["get"] root_handler];
     connection := NoPromise;
     ConnectDB_promise := NoPromise;
     listener := asked_to_listen (PORT (example_env env));
     alive := true;
     trace := [ReadEnv; AppUse "jsonParser"; AppRoute "get" "/";
               Listen (PORT (example_env env))] |}.

(** What the call of [app.listen] with [port] adds to the trace when it
    throws: the end of the process. *)
Definition refusal `{Platform} (port : JsValue) : list Effect :=
  match listen_refuses port with
  | Some err => [ProcessDies err]
  | None => []
  end.

(** What the entry point registers on the application: the router stack it
    leaves behind (the same in every environment, see [stack_boot]). *)
Definition registered `{Platform} : list Layer :=
  stack (boot server_main ∅).

(** ** Reading more of the trace *)

(** The line the callback of [app.listen] logs. *)
Definition running_line (port : JsValue) : string :=
  "Server is running on " +:+ to_string port.

Definition is_Respond (e : Effect) : bool :=
  match e with
  | Respond _ _ => true
  | _ => false
  end.

Definition is_Listen (e : Effect) : bool :=
  match e with
  | Listen _ => true
  | _ => false
  end.

(** A line of [ConnectDB]: the one of success, or one of failure. *)
Definition is_db_log (e : Effect) : bool :=
  match e with
  | Log line =>
      String.eqb line connected_line || String.prefix (problem_line "") line
  | _ => false
  end.

(** A line of the callback of [app.listen]. *)
Definition is_listen_log (e : Effect) : bool :=
  match e with
  | Log line => String.prefix "Server is running on " line
  | _ => false
  end.

(** What [ConnectDB] has logged by the time the promise of
    [mongoose.connect] is in state [c]. *)
Definition db_log_of (c : Promise) : list Effect :=
  match c with
  | Fulfilled _ => [Log connected_line]
  | RejectedWith err => [Log (problem_line err)]
  | NoPromise | Pending => []
  end.

(** What the callback of [app.listen] has logged by the time the listener
    is in state [l]. *)
Definition listen_log_of `{Platform} (l : Listener) : list Effect :=
  match l with
  | Listening port => [Log (running_line port)]
  | BindFailed port _ =>
      if listen_error_fatal then [] else [Log (running_line port)]
  | Unbound | Refused _ _ | Binding _ => []
  end.

(** The requests of a history, in the order of their arrival. *)
Fixpoint requests (evs : list Event) : list Request :=
  match evs with
  | [] => []
  | Incoming req :: rest => req :: requests rest
  | _ :: rest => requests rest
  end.

(** The requests of a history that arrive once the bind has succeeded:
    those after the first end of a bind, when that is a success. *)
Fixpoint served (evs : list Event) : list Request :=
  match evs with
  | [] => []
  | BindEnds Bound :: rest => requests rest
  | BindEnds (BindError _) :: _ => []
  | _ :: rest => served rest
  end.

Definition is_env_change (ev : Event) : bool :=
  match ev with
  | EnvChanges _ => true
  | _ => false
  end.

(** A history without the changes of the environment. *)
Definition without_env_changes (evs : list Event) : list Event :=
  List.filter (fun ev => negb (is_env_change ev)) evs.

(** The same request sent as a GET. *)
Definition as_GET (r : Request) : Request :=
  {| method := "GET"; path := path r; query := query r;
     headers := headers r; body := body r |}.

(** A POST to a path nothing is registered for, announcing a JSON entity
    that is none. *)
Definition post_accounts_malformed_json : Request :=
  {| method := "POST"; path := "/accounts"; query := "";
     headers := {[ "content-type" := "application/json; charset=utf-8";
                   "content-length" := "9" ]};
     body := "name=anna" |}.

Definition head_root_if_none_match : Request :=
  {| method := "HEAD"; path := "/"; query := "";
     headers := {[ "if-none-match" := "*" ]}; body := "" |}.

(** * Properties *)

Section Routing.
Context `{Platform}.

(** The entry points run to the call of [app.listen]; when that throws,
    the process ends there. *)
Lemma boot_server_main env :
  boot server_main env =
  match listen_refuses (PORT (example_env env)) with
  | Some err => die err (started_server env)
  | None => started_server env
  end.
Proof.
  unfold boot, server_main, app_listen, started_server, asked_to_listen.
  cbv beta iota delta [mbind Js_bind mret Js_ret mthrow Js_throw
     require_example_env initial app_use app_get ConnectDB_call
     mongoose_connect emit push_layer set_listener set_connection
     set_ConnectDB_promise module_cache process_env stack connection
     ConnectDB_promise listener alive trace].
  cbn. destruct (listen_refuses (env_get env "PORT")); reflexivity.
Qed.

Lemma boot_backend_server_main env :
  boot backend_server_main env =
  match listen_refuses (PORT (example_env env)) with
  | Some err => die err (started_backend env)
  | None => started_backend env
  end.
Proof.
  unfold boot, backend_server_main, app_listen, started_backend, asked_to_listen.
  cbv beta iota delta [mbind Js_bind mret Js_ret mthrow Js_throw
     require_example_env initial app_use app_get emit push_layer set_listener
     module_cache process_env stack connection ConnectDB_promise listener
     alive trace].
  cbn. destruct (listen_refuses (env_get env "PORT")); reflexivity.
Qed.

Lemma registered_layers :
  registered = [Use "jsonParser" express_json; Route "/" ["get"] root_handler].
Proof.
  unfold registered. rewrite boot_server_main.
  destruct (listen_refuses (PORT (example_env ∅))); reflexivity.
Qed.

Lemma stack_boot env : stack (boot server_main env) = registered.
Proof.
  rewrite registered_layers, boot_server_main.
  destruct (listen_refuses (PORT (example_env env))); reflexivity.
Qed.

Lemma stack_boot_backend env : stack (boot backend_server_main env) = registered.
Proof.
  rewrite registered_layers, boot_backend_server_main.
  destruct (listen_refuses (PORT (example_env env))); reflexivity.
Qed.

(** A request without entity headers is none of the parser's business. *)
Lemma express_json_no_body r :
  headers r !! "transfer-encoding" = None ->
  headers r !! "content-length" = None ->
  express_json r = None.
Proof.
  intros Ht Hc. unfold express_json, has_body. rewrite Ht, Hc.
  reflexivity.
Qed.

(** Nor is one whose entity is not JSON. *)
Lemma express_json_other_type r :
  is_json r = false -> express_json r = None.
Proof.
  intros Hj. unfold express_json. rewrite Hj.
  destruct (has_body r); reflexivity.
Qed.

(** A request without If-None-Match is never fresh. *)
Lemma fresh_needs_if_none_match hs etag :
  hs !! "if-none-match" = None -> fresh hs etag = false.
Proof.
  intros Hn. unfold fresh. rewrite Hn. cbn.
  destruct (truthy (hs !! "if-modified-since")); cbn; [|reflexivity].
  destruct (hs !! "cache-control") as [cc|]; [destruct (no_cache cc)|]; reflexivity.
Qed.

Lemma req_fresh_needs_if_none_match r st etag :
  headers r !! "if-none-match" = None -> req_fresh r st etag = false.
Proof.
  intros Hn. unfold req_fresh. rewrite (fresh_needs_if_none_match _ _ Hn).
  repeat match goal with |- context [if ?b then _ else _] => destruct b end;
    reflexivity.
Qed.

(** [If-None-Match: *] makes a GET fresh, whatever the entity tag. *)
Lemma fresh_star hs etag :
  hs !! "if-none-match" = Some "*" ->
  hs !! "cache-control" = None ->
  fresh hs etag = true.
Proof.
  intros Hn Hc. unfold fresh. rewrite Hn, Hc. cbn.
  rewrite andb_false_r. reflexivity.
Qed.

(** What the handler answers to a GET that is not fresh. *)
Lemma root_handler_GET r :
  method r = "GET" ->
  req_fresh r 200 (etag_fn "Hi hi") = false ->
  root_handler r = hi_hi.
Proof.
  intros Hm Hf. unfold root_handler, res_send. rewrite Hf, Hm. reflexivity.
Qed.

(** The dispatch of a request the parser lets through. *)
Lemma app_handle_registered r :
  express_json r = None ->
  app_handle registered r =
    if negb (path_match "/" (path r)) then done r []
    else if handles_method ["get"] (method r) then root_handler r
    else done r (if String.eqb (method r) "OPTIONS"
                 then route_methods ["get"] else []).
Proof.
  intros Hj. rewrite registered_layers. unfold app_handle. cbn [router_handle].
  rewrite Hj.
  destruct (negb (path_match "/" (path r))); [reflexivity|].
  destruct (handles_method ["get"] (method r)); [reflexivity|].
  destruct (String.eqb (method r) "OPTIONS"); reflexivity.
Qed.

(** And of one it refuses. *)
Lemma app_handle_refused r st :
  express_json r = Some st ->
  app_handle registered r = mkResponse (error_status st) ErrorPage.
Proof.
  intros Hj. rewrite registered_layers. unfold app_handle. cbn [router_handle].
  rewrite Hj. reflexivity.
Qed.

(** The answer of the registered stack to a GET of [/] that gets through. *)
Lemma registered_GET_root r :
  method r = "GET" ->
  path r = "/" ->
  express_json r = None ->
  req_fresh r 200 (etag_fn "Hi hi") = false ->
  app_handle registered r = hi_hi.
Proof.
  intros Hm Hp Hj Hf.
  rewrite (app_handle_registered r Hj), Hp, path_match_root, Hm. cbn.
  apply (root_handler_GET r Hm Hf).
Qed.

Lemma registered_get_root : app_handle registered get_root = hi_hi.
Proof.
  apply registered_GET_root; reflexivity.
Qed.

(** In particular a GET of [/] without entity headers and without
    If-None-Match, whatever else it carries. *)
Corollary registered_plain_GET_root r :
  method r = "GET" ->
  path r = "/" ->
  headers r !! "transfer-encoding" = None ->
  headers r !! "content-length" = None ->
  headers r !! "if-none-match" = None ->
  app_handle registered r = hi_hi.
Proof.
  intros Hm Hp Ht Hc Hn. apply registered_GET_root; try assumption.
  - apply express_json_no_body; assumption.
  - apply req_fresh_needs_if_none_match, Hn.
Qed.

(** C1 (amended): every request with method GET and path [/] that the
    JSON middleware lets through and that is not a fresh conditional
    request gets status 200 and the body [Hi hi], from either entry
    point, whatever its query string, its other headers and its entity. *)
Theorem GET_root_200 env r :
  method r = "GET" ->
  path r = "/" ->
  express_json r = None ->
  req_fresh r 200 (etag_fn "Hi hi") = false ->
  app_handle (stack (boot server_main env)) r = hi_hi
  /\ app_handle (stack (boot backend_server_main env)) r = hi_hi.
Proof.
  intros Hm Hp Hj Hf.
  rewrite stack_boot, stack_boot_backend.
  split; apply registered_GET_root; assumption.
Qed.

(** A request that is not for one of the verbs the route takes. *)
Lemma handles_method_get m :
  Str.lower m <> "get" -> Str.lower m <> "head" ->
  handles_method ["get"] m = false.
Proof.
  intros Hg Hh. unfold handles_method, has_verb. cbn.
  apply String.eqb_neq in Hh. rewrite Hh. cbn.
  rewrite orb_false_r. apply String.eqb_neq. congruence.
Qed.

Lemma lower_OPTIONS m : m = "OPTIONS" -> Str.lower m = "options".
Proof. intros ->. reflexivity. Qed.

(** C7 (amended): a request that the JSON middleware lets through gets the
    framework's not-found answer, status 404, when the router does not
    match its path against [/], or when its method is none of GET, HEAD
    and OPTIONS. *)
Theorem unregistered_is_404 env r :
  express_json r = None ->
  path_match "/" (path r) = false
  \/ (Str.lower (method r) <> "get"
      /\ Str.lower (method r) <> "head"
      /\ Str.lower (method r) <> "options") ->
  app_handle (stack (boot server_main env)) r = mkResponse 404 ErrorPage.
Proof.
  intros Hj Hcase. rewrite stack_boot, (app_handle_registered r Hj).
  assert (Hdone : forall allow, method r <> "OPTIONS" ->
                                done r allow = mkResponse 404 ErrorPage).
  { intros allow Hne. unfold done.
    apply String.eqb_neq in Hne. rewrite Hne. reflexivity. }
  destruct Hcase as [Hp | (Hg & Hh & Ho)].
  - rewrite Hp. cbn. unfold done. rewrite andb_false_r. reflexivity.
  - rewrite (handles_method_get _ Hg Hh).
    assert (Hne : method r <> "OPTIONS").
    { intros E. apply Ho, lower_OPTIONS, E. }
    destruct (negb (path_match "/" (path r))); apply Hdone, Hne.
Qed.

(** A conditional GET of [/] with [If-None-Match: *] is answered 304 with an
    empty body, on every platform. *)
Lemma registered_conditional_GET_root :
  app_handle registered get_root_if_none_match = not_modified.
Proof.
  rewrite app_handle_registered by reflexivity. cbn [path get_root_if_none_match].
  rewrite path_match_root. reflexivity.
Qed.

(** The route of [/] answers HEAD too, on every platform. *)
Lemma registered_HEAD_root :
  app_handle registered head_root = mkResponse 200 (Text "").
Proof.
  rewrite app_handle_registered by reflexivity. cbn [path head_root].
  rewrite path_match_root. reflexivity.
Qed.

End Routing.

Section Process.
Context `{Platform}.

(** The connection attempt settles while [ConnectDB] waits for it: the
    line is logged and the promise of [ConnectDB] fulfils. *)
Lemma on_connection_settled_pending o s :
  connection s = Pending ->
  on_connection_settled o s =
  {| process_env := process_env s; module_cache := module_cache s;
     stack := stack s; connection := settle o;
     ConnectDB_promise := Fulfilled undefined; listener := listener s;
     alive := alive s; trace := trace s ++ [Log (ConnectDB_line o)] |}.
Proof.
  intros Hc. unfold on_connection_settled. rewrite Hc.
  destruct o; reflexivity.
Qed.

Lemma on_connection_settled_other o s :
  connection s <> Pending -> on_connection_settled o s = s.
Proof.
  intros Hc. unfold on_connection_settled.
  destruct (connection s); congruence.
Qed.

(** Running the small scripts of a turn. *)
Ltac run_js :=
  cbv beta iota delta [mbind Js_bind set_listener listen_callback console_log
                       emit die set_env snd];
  cbn.

(** Case analysis on one turn of the event loop. *)
Ltac turn s ev :=
  unfold step; destruct (alive s) eqn:?; cbn [negb];
  [ destruct ev as [o|b|req|env'];
    [ destruct (connection s) eqn:?;
      [ rewrite on_connection_settled_other by congruence
      | rewrite on_connection_settled_pending by assumption
      | rewrite on_connection_settled_other by congruence
      | rewrite on_connection_settled_other by congruence ]
    | unfold on_bind_end; destruct (listener s) eqn:?;
      try destruct b; try destruct listen_error_fatal eqn:?
    | unfold on_request; destruct (listener s) eqn:?
    | idtac ]
  | idtac ];
  run_js;
  repeat match goal with
         | E : listener s = _ |- context [listener s] => rewrite E
         | E : connection s = _ |- context [connection s] => rewrite E
         | E : alive s = _ |- context [alive s] => rewrite E
         end.

Lemma run_preserves (P : State -> Prop) :
  (forall s ev, P s -> P (step s ev)) ->
  forall evs s, P s -> P (run s evs).
Proof.
  intros Hstep evs. unfold run.
  induction evs as [|ev evs IH]; intros s Hs; cbn; [exact Hs|].
  apply IH, Hstep, Hs.
Qed.

(** *** ConnectDB *)

(** The line [ConnectDB] logs for a settlement. *)
Lemma ConnectDB_resume_logs o s :
  ConnectDB_resume o s =
  (Normal undefined, snd (console_log (ConnectDB_line o) s)).
Proof. destruct o; reflexivity. Qed.

Lemma ConnectDB_call_returns uri s : fst (ConnectDB_call uri s) = Normal tt.
Proof. reflexivity. Qed.

(** *** What a turn leaves alone *)

Lemma stack_step s ev : stack (step s ev) = stack s.
Proof. turn s ev; reflexivity. Qed.

Lemma module_cache_step s ev : module_cache (step s ev) = module_cache s.
Proof. turn s ev; reflexivity. Qed.

Lemma listener_port_step s ev :
  listener_port (listener (step s ev)) = listener_port (listener s).
Proof. turn s ev; reflexivity. Qed.

Lemma filter_snoc_false {A} (f : A -> bool) l x :
  f x = false -> List.filter f (l ++ [x]) = List.filter f l.
Proof.
  intros Hx. rewrite List.filter_app. cbn. rewrite Hx. apply app_nil_r.
Qed.

(** No turn calls [mongoose.connect] or reads the environment. *)
Lemma Connect_step s ev :
  List.filter is_Connect (trace (step s ev)) = List.filter is_Connect (trace s).
Proof.
  turn s ev; cbn; rewrite ?filter_snoc_false by reflexivity; reflexivity.
Qed.

Lemma ReadEnv_step s ev :
  List.filter is_ReadEnv (trace (step s ev)) = List.filter is_ReadEnv (trace s).
Proof.
  turn s ev; cbn; rewrite ?filter_snoc_false by reflexivity; reflexivity.
Qed.

Lemma stack_run s evs : stack (run s evs) = stack s.
Proof.
  apply (run_preserves (fun s' => stack s' = stack s)); [|reflexivity].
  intros s' ev Hs'. rewrite stack_step. exact Hs'.
Qed.

Lemma module_cache_run s evs : module_cache (run s evs) = module_cache s.
Proof.
  apply (run_preserves (fun s' => module_cache s' = module_cache s)); [|reflexivity].
  intros s' ev Hs'. rewrite module_cache_step. exact Hs'.
Qed.

Lemma listener_port_run s evs :
  listener_port (listener (run s evs)) = listener_port (listener s).
Proof.
  apply (run_preserves
           (fun s' => listener_port (listener s') = listener_port (listener s)));
    [|reflexivity].
  intros s' ev Hs'. rewrite listener_port_step. exact Hs'.
Qed.

Lemma Connect_run s evs :
  List.filter is_Connect (trace (run s evs)) = List.filter is_Connect (trace s).
Proof.
  apply (run_preserves
           (fun s' => List.filter is_Connect (trace s')
                      = List.filter is_Connect (trace s))); [|reflexivity].
  intros s' ev Hs'. rewrite Connect_step. exact Hs'.
Qed.

Lemma ReadEnv_run s evs :
  List.filter is_ReadEnv (trace (run s evs)) = List.filter is_ReadEnv (trace s).
Proof.
  apply (run_preserves
           (fun s' => List.filter is_ReadEnv (trace s')
                      = List.filter is_ReadEnv (trace s))); [|reflexivity].
  intros s' ev Hs'. rewrite ReadEnv_step. exact Hs'.
Qed.

(** The trace only grows. *)
Lemma trace_step s ev : exists more, trace (step s ev) = (trace s ++ more)%list.
Proof.
  turn s ev;
    first [ exists []; symmetry; apply app_nil_r
          | eexists; reflexivity
          | eexists; rewrite <- app_assoc; reflexivity ].
Qed.

Lemma trace_run evs : forall s,
  exists more, trace (run s evs) = (trace s ++ more)%list.
Proof.
  induction evs as [|ev evs IH]; intros s.
  - exists []. symmetry. apply app_nil_r.
  - destruct (trace_step s ev) as [m1 H1].
    destruct (IH (step s ev)) as [m2 H2].
    exists (m1 ++ m2)%list. cbn. unfold run in H2. rewrite H2, H1.
    symmetry. apply app_assoc.
Qed.

(** *** What can end the process *)

Lemma ended_by_bind_only_step s ev :
  ended_by_bind_only s -> ended_by_bind_only (step s ev).
Proof.
  unfold ended_by_bind_only. intros Hs.
  turn s ev; try (left; reflexivity); try (left; assumption).
  - right. split; [reflexivity|]. eauto.
  - destruct Hs as [Hs|Hs]; [congruence|right; exact Hs].
Qed.

Lemma ended_by_bind_only_run s evs :
  ended_by_bind_only s -> ended_by_bind_only (run s evs).
Proof. apply run_preserves, ended_by_bind_only_step. Qed.

Lemma never_rejected_step s ev : never_rejected s -> never_rejected (step s ev).
Proof.
  unfold never_rejected. intros Hs.
  turn s ev; try exact Hs. right. reflexivity.
Qed.

Lemma never_rejected_run s evs : never_rejected s -> never_rejected (run s evs).
Proof. apply run_preserves, never_rejected_step. Qed.

(** A server that listens lives. *)
Lemma listening_alive s port :
  ended_by_bind_only s -> listener s = Listening port -> alive s = true.
Proof.
  intros [Hs|(_ & p & e & Hs)] Hl; [exact Hs|congruence].
Qed.

(** *** What the server answers *)

Lemma respond_run s evs r a :
  respond (run s evs) r = Some a -> a = app_handle (stack s) r.
Proof.
  unfold respond. rewrite stack_run.
  destruct (alive (run s evs)); [|discriminate].
  destruct (listener (run s evs)); try discriminate.
  intros [= <-]. reflexivity.
Qed.

Lemma respond_listening s port r :
  ended_by_bind_only s -> listener s = Listening port ->
  respond s r = Some (app_handle (stack s) r).
Proof.
  intros Hs Hl. unfold respond.
  rewrite (listening_alive s port Hs Hl), Hl. reflexivity.
Qed.

(** *** The listener does not see the database *)

Lemma listener_view_connection s o :
  listener_view (step s (ConnectionSettles o)) = listener_view s.
Proof.
  unfold listener_view, step.
  destruct (alive s) eqn:Ha; cbn [negb]; [|rewrite Ha; reflexivity].
  destruct (connection s) eqn:Hc.
  2: { rewrite on_connection_settled_pending by assumption. cbn.
       rewrite Ha. reflexivity. }
  all: rewrite on_connection_settled_other by congruence;
    rewrite Ha; reflexivity.
Qed.

Lemma listener_view_other s s' ev :
  is_connection_event ev = false ->
  listener_view s = listener_view s' ->
  listener_view (step s ev) = listener_view (step s' ev).
Proof.
  unfold listener_view. intros Hev Hv. injection Hv as Hl Ha.
  unfold step. rewrite <- Ha.
  destruct (alive s) eqn:Es; cbn [negb]; [|congruence].
  destruct ev as [o|b|req|env']; [discriminate| | |].
  - unfold on_bind_end. rewrite <- Hl.
    destruct (listener s) eqn:El; run_js; try congruence.
    destruct b; run_js; [congruence|].
    destruct listen_error_fatal; run_js; congruence.
  - unfold on_request. rewrite <- Hl.
    destruct (listener s) eqn:El; run_js; congruence.
  - run_js. congruence.
Qed.

Lemma listener_view_run evs : forall s s',
  listener_view s = listener_view s' ->
  listener_view (run s evs) = listener_view (run s' (without_connection_events evs)).
Proof.
  induction evs as [|ev evs IH]; intros s s' Hv; [exact Hv|].
  cbn. destruct (is_connection_event ev) eqn:Hev; cbn.
  - destruct ev; try discriminate.
    apply IH. rewrite listener_view_connection. exact Hv.
  - apply IH, listener_view_other; assumption.
Qed.

Lemma without_with_outcome o evs :
  without_connection_events (map (with_outcome o) evs)
  = without_connection_events evs.
Proof.
  unfold without_connection_events.
  induction evs as [|ev evs IH]; [reflexivity|].
  destruct ev; cbn; rewrite IH; reflexivity.
Qed.

(** A history without a failed bind leaves the process alive. *)
Lemma alive_step s ev :
  alive s = true ->
  (forall err, ev <> BindEnds (BindError err)) ->
  alive (step s ev) = true.
Proof.
  intros Ha Hev. turn s ev; try reflexivity; try congruence.
  all: exfalso; eapply Hev; reflexivity.
Qed.

Lemma alive_run evs : forall s,
  alive s = true ->
  Forall (fun ev => forall err, ev <> BindEnds (BindError err)) evs ->
  alive (run s evs) = true.
Proof.
  induction evs as [|ev evs IH]; intros s Ha Hevs; [exact Ha|].
  inversion Hevs as [|? ? Hev Hrest]; subst.
  apply IH; [apply alive_step; assumption|exact Hrest].
Qed.

(** A process that has ended does nothing more. *)
Lemma run_dead evs : forall s, alive s = false -> run s evs = s.
Proof.
  induction evs as [|ev evs IH]; intros s Hs; [reflexivity|].
  assert (Hstep : step s ev = s) by (unfold step; rewrite Hs; reflexivity).
  change (run s (ev :: evs)) with (run (step s ev) evs).
  rewrite Hstep. apply IH, Hs.
Qed.

(** Refused or not, the listener keeps the port it was asked for. *)
Lemma listener_port_asked port :
  listener_port (asked_to_listen port) = Some port.
Proof. unfold asked_to_listen. destruct (listen_refuses port); reflexivity. Qed.

(** How the entry point with the connector leaves the process. *)
Lemma boot_server_state env :
  trace (boot server_main env)
  = (trace (started_server env) ++ refusal (PORT (example_env env)))%list
  /\ connection (boot server_main env) = Pending
  /\ ConnectDB_promise (boot server_main env) = Pending
  /\ listener (boot server_main env) = asked_to_listen (PORT (example_env env))
  /\ module_cache (boot server_main env) = Some (example_env env)
  /\ (alive (boot server_main env) = true
      <-> listen_refuses (PORT (example_env env)) = None).
Proof.
  rewrite boot_server_main. unfold refusal, started_server, asked_to_listen.
  destruct (listen_refuses (PORT (example_env env))); cbn;
    repeat split; intros; congruence.
Qed.

(** And [backend/server.js]. *)
Lemma boot_backend_state env :
  trace (boot backend_server_main env)
  = (trace (started_backend env) ++ refusal (PORT (example_env env)))%list
  /\ connection (boot backend_server_main env) = NoPromise
  /\ ConnectDB_promise (boot backend_server_main env) = NoPromise
  /\ listener (boot backend_server_main env)
     = asked_to_listen (PORT (example_env env))
  /\ module_cache (boot backend_server_main env) = Some (example_env env)
  /\ (alive (boot backend_server_main env) = true
      <-> listen_refuses (PORT (example_env env)) = None).
Proof.
  rewrite boot_backend_server_main.
  unfold refusal, started_backend, asked_to_listen.
  destruct (listen_refuses (PORT (example_env env))); cbn;
    repeat split; intros; congruence.
Qed.

(** ** The claims about the process *)

(** C2: what the two entry points do about the claim.  The entry point
    with the connector calls [mongoose.connect] before [app.listen], in
    every environment (when Node refuses the port, the call of
    [app.listen] ends the process, after the connection attempt was
    started; the trace keeps the order, it only grows); after the script
    the connection attempt and the promise of [ConnectDB()] are still
    pending and the listener binds (unless Node refused the port), so
    nothing waited for or looked at the outcome; and what becomes of the listener and of the
    process is the same in a history and in the history without its
    database events, or with another outcome of the attempt.
    [backend/server.js] calls [app.listen] alike and never calls
    [mongoose.connect], in no history. *)
Theorem connect_before_listen_not_awaited env :
  let s0 := boot server_main env in
  trace s0
  = ([ReadEnv; AppUse "jsonParser"; AppRoute "get" "/";
      Connect (database_uri (example_env env));
      Listen (PORT (example_env env))]
     ++ refusal (PORT (example_env env)))%list
  /\ connection s0 = Pending
  /\ ConnectDB_promise s0 = Pending
  /\ listener s0
     = match listen_refuses (PORT (example_env env)) with
       | None => Binding (PORT (example_env env))
       | Some err => Refused (PORT (example_env env)) err
       end
  /\ (alive s0 = true <-> listen_refuses (PORT (example_env env)) = None)
  /\ (forall evs, exists later,
        trace (run s0 evs) = (trace s0 ++ later)%list)
  /\ (forall evs,
        listener_view (run s0 evs)
        = listener_view (run s0 (without_connection_events evs)))
  /\ (forall evs o,
        listener_view (run s0 (map (with_outcome o) evs))
        = listener_view (run s0 evs))
  /\ trace (boot backend_server_main env)
     = ([ReadEnv; AppUse "jsonParser"; AppRoute "get" "/";
         Listen (PORT (example_env env))]
        ++ refusal (PORT (example_env env)))%list
  /\ (forall evs,
        List.filter is_Connect (trace (run (boot backend_server_main env) evs))
        = []).
Proof.
  cbn zeta.
  destruct (boot_server_state env) as (Ht & Hc & Hp & Hl & _ & Ha).
  destruct (boot_backend_state env) as (Hbt & _).
  split; [exact Ht|split; [exact Hc|split; [exact Hp|]]].
  split; [rewrite Hl; unfold asked_to_listen;
          destruct (listen_refuses (PORT (example_env env))); reflexivity|].
  split; [exact Ha|split; [|split; [|split; [|split; [exact Hbt|]]]]].
  - intros evs. apply trace_run.
  - intros evs. apply listener_view_run. reflexivity.
  - intros evs o.
    rewrite (listener_view_run (map (with_outcome o) evs) _ _ eq_refl).
    rewrite without_with_outcome.
    symmetry. apply listener_view_run. reflexivity.
  - intros evs. rewrite Connect_run, Hbt, List.filter_app. unfold refusal.
    destruct (listen_refuses (PORT (example_env env))); reflexivity.
Qed.

(** C3: when the connection attempt fails, with whatever connection string,
    [ConnectDB] logs one line, the text [❌ Problem in connecting to
    database ❌ ] followed by the error's description, and completes
    normally: its promise fulfils, the process lives on, the listener and
    the router are as they were, the only new effect is that line, and
    [mongoose.connect], called once by then, is not called again whatever
    happens later. *)
Theorem ConnectDB_failure_logged_and_absorbed env evs err :
  let s := run (boot server_main env) evs in
  let s' := step s (ConnectionSettles (Rejected err)) in
  alive s = true ->
  connection s = Pending ->
  fst (ConnectDB_resume (Rejected err) s) = Normal undefined
  /\ trace s'
     = (trace s ++ [Log ("❌ Problem in connecting to database ❌ " +:+ err)])%list
  /\ ConnectDB_promise s' = Fulfilled undefined
  /\ connection s' = RejectedWith err
  /\ alive s' = true
  /\ listener s' = listener s
  /\ stack s' = stack s
  /\ (forall later,
        List.filter is_Connect (trace (run s' later))
        = [Connect (database_uri (example_env env))]).
Proof.
  cbn zeta. intros Ha Hc.
  split; [reflexivity|].
  assert (Hlater : forall later,
             List.filter is_Connect
               (trace (run (step (run (boot server_main env) evs)
                              (ConnectionSettles (Rejected err))) later))
             = [Connect (database_uri (example_env env))]).
  { intros later. rewrite Connect_run, Connect_step, Connect_run.
    destruct (boot_server_state env) as (Ht & _). rewrite Ht, List.filter_app.
    unfold refusal.
    destruct (listen_refuses (PORT (example_env env))); reflexivity. }
  unfold step in *. rewrite Ha in *. cbn [negb] in *.
  rewrite on_connection_settled_pending in * by exact Hc. cbn.
  repeat split; [exact Ha|exact Hlater].
Qed.

(** A request that reaches a server that listens is answered, with what the
    application answers to it. *)
Lemma step_request_listening s port r :
  alive s = true -> listener s = Listening port ->
  trace (step s (Incoming r))
  = (trace s ++ [Respond r (app_handle (stack s) r)])%list.
Proof.
  intros Ha Hl. unfold step, on_request. rewrite Ha, Hl. reflexivity.
Qed.

(** C4: whatever the environment holds for [database_uri] (a malformed
    string, the empty string, nothing at all) and however the connection
    attempt ends, the process is not ended by it: the promise of
    [ConnectDB] never rejects; a living process lives on when the
    connection attempt settles, either way; a process that has ended was
    ended by [app.listen] (Node refused the port at the call, or the bind
    failed on a platform where that ends the process); with a port that
    Node takes and no failed bind the process lives; and a server that
    listens answers every request that comes in with what the application
    answers to it, a plain GET of [/] with 200 and [Hi hi]. *)
Theorem database_failure_never_ends_the_process env evs :
  let s := run (boot server_main env) evs in
  never_rejected s
  /\ (forall o, alive s = true -> alive (step s (ConnectionSettles o)) = true)
  /\ (alive s = true
      \/ (exists err, listen_refuses (PORT (example_env env)) = Some err)
      \/ (listen_error_fatal = true
          /\ exists port err, listener s = BindFailed port err))
  /\ (listen_refuses (PORT (example_env env)) = None ->
      Forall (fun ev => forall err, ev <> BindEnds (BindError err)) evs ->
      alive s = true)
  /\ (forall port, listener s = Listening port ->
        alive s = true
        /\ (forall r,
              respond s r = Some (app_handle registered r)
              /\ trace (step s (Incoming r))
                 = (trace s ++ [Respond r (app_handle registered r)])%list)
        /\ trace (step s (Incoming get_root))
           = (trace s ++ [Respond get_root hi_hi])%list).
Proof.
  cbn zeta.
  destruct (boot_server_state env) as (_ & _ & Hp & Hl0 & _ & Ha0).
  split; [|split; [|split; [|split]]].
  - apply never_rejected_run. left. exact Hp.
  - intros o Ha.
    pose proof (listener_view_connection (run (boot server_main env) evs) o)
      as Hv.
    unfold listener_view in Hv. injection Hv as _ Hv. congruence.
  - destruct (listen_refuses (PORT (example_env env))) as [err|] eqn:Hr.
    + right. left. exists err. reflexivity.
    + assert (He : ended_by_bind_only (run (boot server_main env) evs)).
      { apply ended_by_bind_only_run. left. apply Ha0. reflexivity. }
      destruct He as [He|He]; [left; exact He|right; right; exact He].
  - intros Hr Hevs. apply alive_run; [apply Ha0, Hr|exact Hevs].
  - intros port Hl.
    assert (Ha : alive (boot server_main env) = true).
    { destruct (alive (boot server_main env)) eqn:Hd; [reflexivity|].
      rewrite (run_dead evs _ Hd), Hl0 in Hl. unfold asked_to_listen in Hl.
      destruct (listen_refuses (PORT (example_env env))); discriminate. }
    assert (He : ended_by_bind_only (run (boot server_main env) evs)).
    { apply ended_by_bind_only_run. left. exact Ha. }
    pose proof (listening_alive _ port He Hl) as Hlive.
    assert (Hst : stack (run (boot server_main env) evs) = registered)
      by (rewrite stack_run; apply stack_boot).
    assert (Hr : forall r,
               respond (run (boot server_main env) evs) r
               = Some (app_handle registered r)
               /\ trace (step (run (boot server_main env) evs) (Incoming r))
                  = (trace (run (boot server_main env) evs)
                     ++ [Respond r (app_handle registered r)])%list).
    { intros r. split.
      - rewrite (respond_listening _ port r He Hl), Hst. reflexivity.
      - rewrite (step_request_listening _ port r Hlive Hl), Hst.
        reflexivity. }
    split; [exact Hlive|split; [exact Hr|]].
    destruct (Hr get_root) as [_ Ht]. rewrite Ht, registered_get_root.
    reflexivity.
Qed.

End Process.

Section Configuration.
Context `{Platform}.

(** What the loader yields for a variable the environment lacks. *)
Lemma example_env_absent_PORT env :
  env !! "PORT" = None -> PORT (example_env env) = undefined.
Proof. intros Hp. unfold example_env, env_get. cbn. rewrite Hp. reflexivity. Qed.

Lemma example_env_absent_database_uri env :
  env !! "database_uri" = None -> database_uri (example_env env) = undefined.
Proof. intros Hd. unfold example_env, env_get. cbn. rewrite Hd. reflexivity. Qed.

(** The calls the entry points make, up to and with [app.listen]. *)
Lemma boot_server_calls env :
  firstn 5 (trace (boot server_main env)) = trace (started_server env).
Proof.
  destruct (boot_server_state env) as (Ht & _). rewrite Ht. reflexivity.
Qed.

Lemma boot_backend_calls env :
  firstn 4 (trace (boot backend_server_main env)) = trace (started_backend env).
Proof.
  destruct (boot_backend_state env) as (Ht & _). rewrite Ht. reflexivity.
Qed.

(** C6: an absent [PORT] comes out of the loader as [undefined], and
    [undefined] is what [app.listen] is called with, in both entry points:
    nothing else has happened by the end of the script than the calls made
    with the loader's values, the listener binds and the process lives; an
    absent [database_uri] comes out as [undefined], and [undefined] is what
    [mongoose.connect] is called with, the attempt pending; and in every
    environment what the loader yields, absent or not, is what
    [mongoose.connect] and [app.listen] are called with, unchanged. *)
Theorem absent_variables_pass_through env :
  (env !! "PORT" = None ->
   PORT (example_env env) = undefined
   /\ trace (boot server_main env)
      = [ReadEnv; AppUse "jsonParser"; AppRoute "get" "/";
         Connect (database_uri (example_env env)); Listen undefined]
   /\ trace (boot backend_server_main env)
      = [ReadEnv; AppUse "jsonParser"; AppRoute "get" "/"; Listen undefined]
   /\ listener (boot server_main env) = Binding undefined
   /\ alive (boot server_main env) = true)
  /\ (env !! "database_uri" = None ->
      database_uri (example_env env) = undefined
      /\ firstn 4 (trace (boot server_main env))
         = [ReadEnv; AppUse "jsonParser"; AppRoute "get" "/";
            Connect undefined]
      /\ connection (boot server_main env) = Pending)
  /\ firstn 5 (trace (boot server_main env))
     = [ReadEnv; AppUse "jsonParser"; AppRoute "get" "/";
        Connect (database_uri (example_env env));
        Listen (PORT (example_env env))]
  /\ firstn 4 (trace (boot backend_server_main env))
     = [ReadEnv; AppUse "jsonParser"; AppRoute "get" "/";
        Listen (PORT (example_env env))].
Proof.
  destruct (boot_server_state env) as (Ht & Hc & _ & Hl & _ & Ha).
  destruct (boot_backend_state env) as (Hbt & _).
  split; [|split; [|split]].
  - intros Hp. apply example_env_absent_PORT in Hp.
    unfold started_server, started_backend, refusal in Ht, Hbt.
    cbn [trace] in Ht, Hbt.
    rewrite Hp in Ht, Hbt, Hl, Ha.
    unfold asked_to_listen in Hl.
    rewrite listen_refuses_undefined in Ht, Hbt, Hl, Ha.
    rewrite Ht, Hbt, Hl.
    split; [exact Hp|]. repeat split. apply Ha. reflexivity.
  - intros Hd. pose proof (boot_server_calls env) as Hf.
    apply example_env_absent_database_uri in Hd.
    split; [exact Hd|split; [|exact Hc]].
    change 4 with (Nat.min 4 5). rewrite <- firstn_firstn, Hf.
    unfold started_server. cbn [trace firstn]. rewrite Hd. reflexivity.
  - apply boot_server_calls.
  - apply boot_backend_calls.
Qed.

(** A consultation of the loader by a process that has run its entry point
    returns what is cached and changes nothing. *)
Lemma require_example_env_cached s cfg :
  module_cache s = Some cfg -> require_example_env s = (Normal cfg, s).
Proof. intros Hc. unfold require_example_env. rewrite Hc. reflexivity. Qed.

(** C8: after the entry point has run and whatever happens then, changes of
    the environment included, the environment has been read once; a
    consultation of the loader returns the values of the environment the
    process started in, without reading again and without any other effect;
    and the port of the listener and the connection string of the one
    connection attempt are those values. *)
Theorem configuration_read_once_and_cached env evs :
  let s := run (boot server_main env) evs in
  List.filter is_ReadEnv (trace s) = [ReadEnv]
  /\ require_example_env s = (Normal (example_env env), s)
  /\ listener_port (listener s) = Some (PORT (example_env env))
  /\ List.filter is_Connect (trace s)
     = [Connect (database_uri (example_env env))].
Proof.
  cbn zeta. rewrite ReadEnv_run, listener_port_run, Connect_run.
  destruct (boot_server_state env) as (Ht & _ & _ & Hl & Hm & _).
  rewrite Ht, Hl, !List.filter_app. unfold refusal.
  split; [|split; [|split]].
  - destruct (listen_refuses (PORT (example_env env))); reflexivity.
  - apply require_example_env_cached. rewrite module_cache_run. exact Hm.
  - apply listener_port_asked.
  - destruct (listen_refuses (PORT (example_env env))); reflexivity.
Qed.

(** C9: however the promise of [mongoose.connect] settles, the body of
    [ConnectDB] completes normally, so the promise of [ConnectDB()] fulfils
    with [undefined]; in the running process that promise is pending or
    fulfilled with [undefined], never rejected, and it fulfils in the turn
    in which the connection attempt settles. *)
Theorem ConnectDB_promise_always_fulfils :
  (forall o s, async_result (fst (ConnectDB_resume o s)) = Fulfilled undefined)
  /\ (forall env evs, never_rejected (run (boot server_main env) evs))
  /\ (forall env evs o,
        alive (run (boot server_main env) evs) = true ->
        connection (run (boot server_main env) evs) = Pending ->
        ConnectDB_promise
          (step (run (boot server_main env) evs) (ConnectionSettles o))
        = Fulfilled undefined).
Proof.
  split; [|split].
  - intros o s. rewrite ConnectDB_resume_logs. reflexivity.
  - intros env evs. apply never_rejected_run. left.
    apply (boot_server_state env).
  - intros env evs o Ha Hc. unfold step. rewrite Ha. cbn [negb].
    rewrite on_connection_settled_pending by exact Hc. reflexivity.
Qed.

(** C10 (amended): what the server answers to a request is a function of
    the request alone: two histories of the process, whatever the database
    did in each and whether or not the connection attempt has settled,
    give the same answer to the same request, and to any two GETs of [/]
    that get through to the handler and are not fresh they both give 200
    and [Hi hi]; the entry point without the connector answers alike. *)
Theorem GET_root_ignores_database env evs1 evs2 :
  let s1 := run (boot server_main env) evs1 in
  let s2 := run (boot server_main env) evs2 in
  (forall r a1 a2,
     respond s1 r = Some a1 -> respond s2 r = Some a2 -> a1 = a2)
  /\ (forall r1 r2 a1 a2,
        unconditional_GET_root r1 -> unconditional_GET_root r2 ->
        respond s1 r1 = Some a1 -> respond s2 r2 = Some a2 ->
        a1 = hi_hi /\ a2 = hi_hi)
  /\ (forall r a1 a2,
        respond s1 r = Some a1 ->
        respond (run (boot backend_server_main env) evs2) r = Some a2 ->
        a1 = a2).
Proof.
  cbn zeta. split; [|split].
  - intros r a1 a2 H1 H2.
    apply respond_run in H1. apply respond_run in H2. congruence.
  - intros r1 r2 a1 a2 (Hm1 & Hp1 & Hj1 & Hf1) (Hm2 & Hp2 & Hj2 & Hf2) H1 H2.
    apply respond_run in H1. apply respond_run in H2.
    rewrite stack_boot in H1, H2. subst a1 a2.
    split; apply registered_GET_root; assumption.
  - intros r a1 a2 H1 H2.
    apply respond_run in H1. apply respond_run in H2.
    rewrite stack_boot in H1. rewrite stack_boot_backend in H2. congruence.
Qed.

(** The two entry points differ in one effect, in every environment: the
    call of [mongoose.connect]. *)
Lemma entry_points_differ_everywhere env :
  List.filter (fun e => negb (is_Connect e)) (trace (boot server_main env))
  = trace (boot backend_server_main env)
  /\ List.filter is_Connect (trace (boot server_main env))
     = [Connect (database_uri (example_env env))]
  /\ List.filter is_Connect (trace (boot backend_server_main env)) = [].
Proof.
  destruct (boot_server_state env) as (Ht & _).
  destruct (boot_backend_state env) as (Hbt & _).
  rewrite Ht, Hbt, !List.filter_app. unfold refusal.
  destruct (listen_refuses (PORT (example_env env))); repeat split.
Qed.

End Configuration.

(** * On the sample platform *)

Example get_root_with_query_200 :
  @app_handle sample_platform (@registered sample_platform) get_root_with_query
  = hi_hi.
Proof. vm_compute. reflexivity. Qed.

Example options_root_allowed :
  @app_handle sample_platform (@registered sample_platform) options_root
  = mkResponse 200 (AllowList ["GET"; "HEAD"]).
Proof. vm_compute. reflexivity. Qed.

Example post_root_404 :
  @app_handle sample_platform (@registered sample_platform) post_root
  = mkResponse 404 ErrorPage.
Proof. vm_compute. reflexivity. Qed.

(** A start with an unreachable database: the bind succeeds, a request is
    answered, then the connection attempt fails and is logged. *)
Example unreachable_database_history :
  trace (@run sample_platform (boot (@server_main sample_platform) sample_env)
           [BindEnds Bound; Incoming get_root;
            ConnectionSettles (Rejected "MongooseServerSelectionError")])
  = [ReadEnv; AppUse "jsonParser"; AppRoute "get" "/";
     Connect (str "mongodb://localhost:27017/Bank_Transaction_System");
     Listen (str "3000");
     Log "Server is running on 3000";
     Respond get_root hi_hi;
     Log (problem_line "MongooseServerSelectionError")].
Proof. vm_compute. reflexivity. Qed.

(** The ports Node refuses at the call of [app.listen], and some it
    takes: a text that is no number names a pipe, and no port at all lets
    the system pick one. *)
Example ports_refused_and_taken :
  decimal_port_check (str "") = Some "ERR_SOCKET_BAD_PORT"
  /\ decimal_port_check (str "70000") = Some "ERR_SOCKET_BAD_PORT"
  /\ decimal_port_check (str "3000.5") = Some "ERR_SOCKET_BAD_PORT"
  /\ decimal_port_check (str "65536") = Some "ERR_SOCKET_BAD_PORT"
  /\ decimal_port_check (str "65535") = None
  /\ decimal_port_check (str "3000") = None
  /\ decimal_port_check (str " 3000 ") = None
  /\ decimal_port_check (str "0") = None
  /\ decimal_port_check (str "/tmp/app.sock") = None
  /\ decimal_port_check undefined = None.
Proof. repeat split. Qed.

(** A start with a port out of range: the call of [app.listen] throws, after
    the connection attempt was started; the process has ended, and nothing
    that comes later has an effect. *)
Example port_out_of_range_history :
  trace (@run sample_platform
           (boot (@server_main sample_platform) (<["PORT" := "70000"]> sample_env))
           [BindEnds Bound; Incoming get_root; ConnectionSettles Resolved])
  = [ReadEnv; AppUse "jsonParser"; AppRoute "get" "/";
     Connect (str "mongodb://localhost:27017/Bank_Transaction_System");
     Listen (str "70000");
     ProcessDies "ERR_SOCKET_BAD_PORT"]
  /\ alive (boot (@server_main sample_platform)
              (<["PORT" := "70000"]> sample_env)) = false
  /\ listener (boot (@server_main sample_platform)
                 (<["PORT" := "70000"]> sample_env))
     = Refused (str "70000") "ERR_SOCKET_BAD_PORT".
Proof. repeat split; vm_compute; reflexivity. Qed.

(** The same with an empty [PORT], in [backend/server.js]. *)
Example empty_port_history :
  trace (@run sample_platform
           (boot (@backend_server_main sample_platform)
              (<["PORT" := ""]> sample_env))
           [BindEnds Bound; Incoming get_root])
  = [ReadEnv; AppUse "jsonParser"; AppRoute "get" "/";
     Listen (str "");
     ProcessDies "ERR_SOCKET_BAD_PORT"]
  /\ alive (boot (@backend_server_main sample_platform)
              (<["PORT" := ""]> sample_env)) = false.
Proof. repeat split; vm_compute; reflexivity. Qed.

(** C1, as stated, fails: a GET of [/] that announces a JSON entity and
    sends one that is no JSON is refused by the middleware registered before
    the route, with status 400 and the framework's error page; the handler
    never runs.  (On every platform the answer to a request the middleware
    refuses is its error: [app_handle_refused]; and a fresh conditional GET
    of [/] is answered 304: [registered_conditional_GET_root].) *)
Lemma GET_root_malformed_json_is_400 :
  method get_root_malformed_json = "GET"
  /\ path get_root_malformed_json = "/"
  /\ @app_handle sample_platform
       (stack (boot (@server_main sample_platform) sample_env))
       get_root_malformed_json
     = mkResponse 400 ErrorPage.
Proof. repeat split. Qed.

(** C1 (amended) at a GET of [/] without headers. *)
Lemma GET_root_200_witness :
  @app_handle sample_platform
    (stack (boot (@server_main sample_platform) sample_env)) get_root = hi_hi
  /\ @app_handle sample_platform
       (stack (boot (@backend_server_main sample_platform) sample_env)) get_root
     = hi_hi.
Proof.
  apply (@GET_root_200 sample_platform sample_env get_root); reflexivity.
Defined.

(** C7, as stated, fails: HEAD of [/] is not GET of [/], and is answered
    200, not 404 (on every platform: [registered_HEAD_root]). *)
Lemma HEAD_root_is_200 :
  method head_root = "HEAD"
  /\ path head_root = "/"
  /\ @app_handle sample_platform
       (stack (boot (@server_main sample_platform) sample_env)) head_root
     = mkResponse 200 (Text "").
Proof. repeat split. Qed.

(** C7 (amended) at a GET of a path nothing is registered for. *)
Lemma unregistered_is_404_witness :
  @app_handle sample_platform
    (stack (boot (@server_main sample_platform) sample_env)) get_accounts
  = mkResponse 404 ErrorPage.
Proof.
  apply (@unregistered_is_404 sample_platform sample_env get_accounts).
  - reflexivity.
  - left. reflexivity.
Defined.

(** C3 at a refused connection, before anything else has happened. *)
Lemma ConnectDB_failure_witness :
  trace (@step sample_platform
           (@run sample_platform (boot (@server_main sample_platform) sample_env) [])
           (ConnectionSettles (Rejected "MongooseServerSelectionError")))
  = [ReadEnv; AppUse "jsonParser"; AppRoute "get" "/";
     Connect (str "mongodb://localhost:27017/Bank_Transaction_System");
     Listen (str "3000");
     Log "❌ Problem in connecting to database ❌ MongooseServerSelectionError"]
  /\ alive (@step sample_platform
              (@run sample_platform (boot (@server_main sample_platform) sample_env) [])
              (ConnectionSettles (Rejected "MongooseServerSelectionError")))
     = true.
Proof.
  pose proof (@ConnectDB_failure_logged_and_absorbed sample_platform sample_env
                [] "MongooseServerSelectionError") as W.
  cbv zeta in W.
  specialize (W ltac:(vm_compute; reflexivity) ltac:(vm_compute; reflexivity)).
  destruct W as (_ & Ht & _ & _ & Ha & _).
  split; [|exact Ha].
  etransitivity; [exact Ht|]. vm_compute. reflexivity.
Defined.

(** C4 with no [database_uri] and no [PORT] at all, a connection attempt
    that fails and a bind that succeeds: the process lives and the server
    answers the plain GET of [/] that comes in. *)
Lemma database_failure_witness :
  alive (@run sample_platform (boot (@server_main sample_platform) ∅)
           [ConnectionSettles (Rejected "MongooseError"); BindEnds Bound])
  = true
  /\ @respond sample_platform
       (@run sample_platform (boot (@server_main sample_platform) ∅)
          [ConnectionSettles (Rejected "MongooseError"); BindEnds Bound])
       get_root
     = Some hi_hi
  /\ trace (@step sample_platform
              (@run sample_platform (boot (@server_main sample_platform) ∅)
                 [ConnectionSettles (Rejected "MongooseError"); BindEnds Bound])
              (Incoming get_root))
     = [ReadEnv; AppUse "jsonParser"; AppRoute "get" "/";
        Connect undefined; Listen undefined;
        Log "❌ Problem in connecting to database ❌ MongooseError";
        Log "Server is running on undefined";
        Respond get_root hi_hi].
Proof.
  pose proof (@database_failure_never_ends_the_process sample_platform ∅
                [ConnectionSettles (Rejected "MongooseError"); BindEnds Bound])
    as W.
  cbv zeta in W. destruct W as (_ & _ & _ & _ & Hl).
  specialize (Hl undefined ltac:(vm_compute; reflexivity)).
  destruct Hl as (Ha & Hr & Ht).
  split; [exact Ha|split].
  - etransitivity; [apply Hr|]. vm_compute. reflexivity.
  - etransitivity; [exact Ht|]. vm_compute. reflexivity.
Defined.

(** C5 at the sample environment: the entry point with the connector starts
    a connection attempt, [backend/server.js] starts none. *)
Theorem entry_points_differ :
  trace (boot (@server_main sample_platform) sample_env)
  = [ReadEnv; AppUse "jsonParser"; AppRoute "get" "/";
     Connect (str "mongodb://localhost:27017/Bank_Transaction_System");
     Listen (str "3000")]
  /\ trace (boot (@backend_server_main sample_platform) sample_env)
     = [ReadEnv; AppUse "jsonParser"; AppRoute "get" "/"; Listen (str "3000")].
Proof. split; vm_compute; reflexivity. Qed.

(** C6 at the empty environment: both values are [undefined], and
    [undefined] is what [mongoose.connect] and [app.listen] are called
    with. *)
Lemma absent_variables_witness :
  PORT (example_env ∅) = undefined
  /\ database_uri (example_env ∅) = undefined
  /\ trace (boot (@server_main sample_platform) ∅)
     = [ReadEnv; AppUse "jsonParser"; AppRoute "get" "/";
        Connect undefined; Listen undefined]
  /\ alive (boot (@server_main sample_platform) ∅) = true.
Proof.
  destruct (@absent_variables_pass_through sample_platform ∅) as (Hp & Hd & _).
  specialize (Hp ltac:(vm_compute; reflexivity)).
  specialize (Hd ltac:(vm_compute; reflexivity)).
  destruct Hp as (Hp & Ht & _ & _ & Ha). destruct Hd as (Hd & _).
  split; [exact Hp|split; [exact Hd|split; [|exact Ha]]].
  etransitivity; [exact Ht|]. vm_compute. reflexivity.
Defined.

(** C10, as stated, fails: in one and the same state of the database, two
    GETs of [/] get different answers. *)
Lemma GET_root_answers_differ :
  @respond sample_platform
    (@run sample_platform (boot (@server_main sample_platform) sample_env)
       [ConnectionSettles Resolved; BindEnds Bound]) get_root
  = Some hi_hi
  /\ @respond sample_platform
       (@run sample_platform (boot (@server_main sample_platform) sample_env)
          [ConnectionSettles Resolved; BindEnds Bound]) get_root_if_none_match
     = Some not_modified.
Proof. split; vm_compute; reflexivity. Qed.

(** C10 (amended) at a server whose connection attempt failed and at one
    whose attempt is still pending: the same answer to the plain GET. *)
Lemma GET_root_ignores_database_witness :
  @respond sample_platform
    (@run sample_platform (boot (@server_main sample_platform) sample_env)
       [ConnectionSettles (Rejected "MongooseError"); BindEnds Bound]) get_root
  = Some hi_hi
  /\ @respond sample_platform
       (@run sample_platform (boot (@server_main sample_platform) sample_env)
          [BindEnds Bound]) get_root
     = Some hi_hi.
Proof.
  pose proof (@GET_root_ignores_database sample_platform sample_env
                [ConnectionSettles (Rejected "MongooseError"); BindEnds Bound]
                [BindEnds Bound]) as W.
  cbv zeta in W. destruct W as (_ & Hg & _).
  assert (Hu : @unconditional_GET_root sample_platform get_root)
    by (repeat split).
  assert (H1 : @respond sample_platform
                 (@run sample_platform
                    (boot (@server_main sample_platform) sample_env)
                    [ConnectionSettles (Rejected "MongooseError"); BindEnds Bound])
                 get_root = Some hi_hi)
    by (vm_compute; reflexivity).
  assert (H2 : @respond sample_platform
                 (@run sample_platform
                    (boot (@server_main sample_platform) sample_env)
                    [BindEnds Bound])
                 get_root = Some hi_hi)
    by (vm_compute; reflexivity).
  destruct (Hg get_root get_root hi_hi hi_hi Hu Hu H1 H2) as [_ _].
  split; [exact H1|exact H2].
Defined.

(** * More of the code: the success branch, the callback, the trace *)

Section Logging.
Context `{Platform}.

(** Case analysis on one turn of the event loop. *)
Ltac by_turn s ev :=
  unfold step; destruct (alive s) eqn:?; cbn [negb];
  [ destruct ev as [o|b|req|env'];
    [ destruct (connection s) eqn:?;
      [ rewrite on_connection_settled_other by congruence
      | rewrite on_connection_settled_pending by assumption
      | rewrite on_connection_settled_other by congruence
      | rewrite on_connection_settled_other by congruence ]
    | unfold on_bind_end; destruct (listener s) eqn:?;
      try destruct b; try destruct listen_error_fatal eqn:?
    | unfold on_request; destruct (listener s) eqn:?
    | idtac ]
  | idtac ];
  cbv beta iota delta [mbind Js_bind set_listener listen_callback console_log
                       emit die set_env snd];
  cbn [process_env module_cache stack connection ConnectDB_promise listener
       alive trace];
  repeat match goal with
         | E : listener s = _ |- context [listener s] => rewrite E
         | E : connection s = _ |- context [connection s] => rewrite E
         | E : alive s = _ |- context [alive s] => rewrite E
         end.

Lemma run_app s evs later : run s (evs ++ later) = run (run s evs) later.
Proof. unfold run. apply fold_left_app. Qed.

Lemma prefix_app p rest : String.prefix p (p +:+ rest) = true.
Proof.
  induction p as [|c p IH]; simpl.
  - destruct rest; reflexivity.
  - destruct (ascii_dec c c) as [_|Hne]; [exact IH|congruence].
Qed.

Lemma is_db_log_line o : is_db_log (Log (ConnectDB_line o)) = true.
Proof.
  destruct o as [|err]; [reflexivity|].
  unfold is_db_log, ConnectDB_line.
  change (problem_line err) with (problem_line "" +:+ err).
  rewrite prefix_app. apply orb_true_r.
Qed.

Lemma is_db_log_running port : is_db_log (Log (running_line port)) = false.
Proof. reflexivity. Qed.

Lemma is_listen_log_running port : is_listen_log (Log (running_line port)) = true.
Proof. apply prefix_app. Qed.

Lemma is_listen_log_line o : is_listen_log (Log (ConnectDB_line o)) = false.
Proof. destruct o; reflexivity. Qed.

Lemma filter_snoc {A} (f : A -> bool) l x :
  List.filter f (l ++ [x]) = (List.filter f l ++ if f x then [x] else [])%list.
Proof. rewrite List.filter_app. cbn. destruct (f x); reflexivity. Qed.

(** *** What ConnectDB logs *)

Lemma db_log_step s ev :
  List.filter is_db_log (trace s) = db_log_of (connection s) ->
  List.filter is_db_log (trace (step s ev)) = db_log_of (connection (step s ev)).
Proof.
  intros Hs.
  by_turn s ev; rewrite ?filter_snoc, ?is_db_log_line, ?is_db_log_running;
    cbn [is_db_log]; rewrite ?app_nil_r; try exact Hs;
    try (rewrite Hs;
         match goal with |- context [settle ?o] => destruct o end;
         reflexivity).
Qed.

Lemma db_log_run s evs :
  List.filter is_db_log (trace s) = db_log_of (connection s) ->
  List.filter is_db_log (trace (run s evs))
  = db_log_of (connection (run s evs)).
Proof.
  apply (run_preserves
           (fun s' => List.filter is_db_log (trace s')
                      = db_log_of (connection s'))).
  intros s' ev. apply db_log_step.
Qed.

(** The promise of [ConnectDB()] is pending as long as the connection
    attempt is, and fulfilled once that has settled. *)
Lemma promise_follows_connection_step s ev :
  (connection s = Pending /\ ConnectDB_promise s = Pending)
  \/ (connection s <> Pending /\ ConnectDB_promise s = Fulfilled undefined) ->
  (connection (step s ev) = Pending /\ ConnectDB_promise (step s ev) = Pending)
  \/ (connection (step s ev) <> Pending
      /\ ConnectDB_promise (step s ev) = Fulfilled undefined).
Proof.
  intros Hs.
  by_turn s ev; try exact Hs;
    try (destruct Hs as [[Hc Hp]|[Hc Hp]]; [left|right]; split; congruence).
  right. split; [|reflexivity].
  match goal with |- context [settle ?o] => destruct o end; discriminate.
Qed.

(** X1: at every moment of the process with the connector, the lines of
    [ConnectDB] in the trace are: none while the connection attempt is
    pending; once it has settled, the one line of its outcome (that of
    success, or that of failure with the error), never both and never a
    second one.  The promise of [ConnectDB()] is pending exactly as long as
    the attempt is, and fulfilled with [undefined] after. *)
Theorem ConnectDB_logs_the_outcome_once env evs :
  let s := run (boot server_main env) evs in
  List.filter is_db_log (trace s) = db_log_of (connection s)
  /\ (length (List.filter is_db_log (trace s)) <= 1)%nat
  /\ ((connection s = Pending /\ ConnectDB_promise s = Pending)
      \/ (connection s <> Pending
          /\ ConnectDB_promise s = Fulfilled undefined)).
Proof.
  cbn zeta.
  assert (Hlog : List.filter is_db_log (trace (run (boot server_main env) evs))
                 = db_log_of (connection (run (boot server_main env) evs)))
    by (apply db_log_run; rewrite boot_server_main;
        destruct (listen_refuses (PORT (example_env env))); reflexivity).
  split; [exact Hlog|split].
  - rewrite Hlog.
    destruct (connection (run (boot server_main env) evs)); cbn; lia.
  - apply (run_preserves
             (fun s => (connection s = Pending /\ ConnectDB_promise s = Pending)
                       \/ (connection s <> Pending
                           /\ ConnectDB_promise s = Fulfilled undefined))).
    + intros s ev. apply promise_follows_connection_step.
    + left. split; apply (boot_server_state env).
Qed.

(** *** What the callback of app.listen logs *)

Lemma listen_log_step s ev :
  List.filter is_listen_log (trace s) = listen_log_of (listener s) ->
  List.filter is_listen_log (trace (step s ev))
  = listen_log_of (listener (step s ev)).
Proof.
  intros Hs.
  by_turn s ev;
    rewrite ?filter_snoc, ?is_listen_log_line;
    cbn [is_listen_log listen_log_of]; rewrite ?prefix_app, ?app_nil_r;
    try exact Hs;
    try (rewrite Hs; cbn [listen_log_of];
         repeat match goal with E : listen_error_fatal = _ |- _ => rewrite E end;
         reflexivity).
Qed.

Lemma Listen_step s ev :
  List.filter is_Listen (trace (step s ev)) = List.filter is_Listen (trace s).
Proof.
  by_turn s ev; rewrite ?filter_snoc; cbn [is_Listen];
    rewrite ?app_nil_r; reflexivity.
Qed.

(** What holds of the callback's line and of the call of [app.listen] in a
    process started by an entry point that called [app.listen] once. *)
Lemma listen_log_run s0 evs port :
  List.filter is_listen_log (trace s0) = listen_log_of (listener s0) ->
  List.filter is_Listen (trace s0) = [Listen port] ->
  listener_port (listener s0) = Some port ->
  List.filter is_listen_log (trace (run s0 evs))
  = listen_log_of (listener (run s0 evs))
  /\ List.filter is_Listen (trace (run s0 evs)) = [Listen port]
  /\ listener_port (listener (run s0 evs)) = Some port.
Proof.
  intros Hlog Hl Hp.
  apply (run_preserves
           (fun s => List.filter is_listen_log (trace s)
                     = listen_log_of (listener s)
                     /\ List.filter is_Listen (trace s) = [Listen port]
                     /\ listener_port (listener s) = Some port));
    [|repeat split; assumption].
  intros s ev (H1 & H2 & H3). split; [|split].
  - apply listen_log_step, H1.
  - rewrite Listen_step. exact H2.
  - rewrite listener_port_step. exact H3.
Qed.

(** X2: in either entry point's process, at every moment, [app.listen] has
    been called once, with a port that the listener keeps; the callback's
    line [Server is running on <port>] is in the trace at most once, with
    that same port ([undefined] when there is none): not before the bind
    has ended, once when the server listens, and after a failed bind once
    or not at all according to whether the framework hands the error to the
    callback. *)
Theorem listen_callback_logs_once env evs :
  (exists port,
     let s := run (boot server_main env) evs in
     List.filter is_listen_log (trace s) = listen_log_of (listener s)
     /\ List.filter is_Listen (trace s) = [Listen port]
     /\ listener_port (listener s) = Some port)
  /\ (exists port,
        let s := run (boot backend_server_main env) evs in
        List.filter is_listen_log (trace s) = listen_log_of (listener s)
        /\ List.filter is_Listen (trace s) = [Listen port]
        /\ listener_port (listener s) = Some port).
Proof.
  split; exists (PORT (example_env env)); cbn zeta;
    apply listen_log_run;
    rewrite ?boot_server_main, ?boot_backend_server_main;
    unfold started_server, started_backend, asked_to_listen;
    destruct (listen_refuses (PORT (example_env env))); reflexivity.
Qed.

End Logging.

Section Serving.
Context `{Platform}.

(** Case analysis on one turn of the event loop. *)
Ltac by_turn s ev :=
  unfold step; destruct (alive s) eqn:?; cbn [negb];
  [ destruct ev as [o|b|req|env'];
    [ destruct (connection s) eqn:?;
      [ rewrite on_connection_settled_other by congruence
      | rewrite on_connection_settled_pending by assumption
      | rewrite on_connection_settled_other by congruence
      | rewrite on_connection_settled_other by congruence ]
    | unfold on_bind_end; destruct (listener s) eqn:?;
      try destruct b; try destruct listen_error_fatal eqn:?
    | unfold on_request; destruct (listener s) eqn:?
    | idtac ]
  | idtac ];
  cbv beta iota delta [mbind Js_bind set_listener listen_callback console_log
                       emit die set_env snd];
  cbn [process_env module_cache stack connection ConnectDB_promise listener
       alive trace];
  repeat match goal with
         | E : listener s = _ |- context [listener s] => rewrite E
         | E : connection s = _ |- context [connection s] => rewrite E
         | E : alive s = _ |- context [alive s] => rewrite E
         end.

Lemma filter_snoc_if {A} (f : A -> bool) l x :
  List.filter f (l ++ [x]) = (List.filter f l ++ if f x then [x] else [])%list.
Proof. rewrite List.filter_app. cbn. destruct (f x); reflexivity. Qed.

Lemma run_cons s ev evs : run s (ev :: evs) = run (step s ev) evs.
Proof. reflexivity. Qed.

(** *** Which requests are answered *)

(** A process that does not listen and no longer binds answers nothing. *)
Lemma Respond_idle evs : forall s,
  (alive s = false \/ (forall port, listener s <> Listening port)
                       /\ (forall port, listener s <> Binding port)) ->
  List.filter is_Respond (trace (run s evs)) = List.filter is_Respond (trace s).
Proof.
  induction evs as [|ev evs IH]; intros s Hs; [reflexivity|].
  rewrite run_cons, IH.
  - destruct Hs as [Hd|[Hl Hb]].
    + unfold step. rewrite Hd. reflexivity.
    + by_turn s ev; rewrite ?filter_snoc_if; cbn [is_Respond];
        rewrite ?app_nil_r; try reflexivity.
      all: first [ exfalso; eapply Hb; reflexivity
                 | exfalso; eapply Hl; reflexivity ].
  - destruct Hs as [Hd|[Hl Hb]].
    + left. unfold step. rewrite Hd. exact Hd.
    + by_turn s ev; try (right; split; intros; congruence);
        try (left; reflexivity).
      all: first [ exfalso; eapply Hb; reflexivity
                 | exfalso; eapply Hl; reflexivity ].
Qed.

(** A server that listens stays as it is, and answers every request that
    comes in. *)
Lemma listening_step s ev port :
  alive s = true -> listener s = Listening port ->
  alive (step s ev) = true
  /\ listener (step s ev) = Listening port
  /\ stack (step s ev) = stack s
  /\ List.filter is_Respond (trace (step s ev))
     = (List.filter is_Respond (trace s)
        ++ map (fun r => Respond r (app_handle (stack s) r)) (requests [ev]))%list.
Proof.
  intros Ha Hl.
  by_turn s ev; try congruence; rewrite ?filter_snoc_if; cbn [is_Respond requests map];
    rewrite ?app_nil_r; repeat split; congruence.
Qed.

Lemma listening_run evs : forall s port,
  alive s = true -> listener s = Listening port ->
  alive (run s evs) = true
  /\ listener (run s evs) = Listening port
  /\ List.filter is_Respond (trace (run s evs))
     = (List.filter is_Respond (trace s)
        ++ map (fun r => Respond r (app_handle (stack s) r)) (requests evs))%list.
Proof.
  induction evs as [|ev evs IH]; intros s port Ha Hl.
  - cbn. rewrite app_nil_r. repeat split; assumption.
  - destruct (listening_step s ev port Ha Hl) as (Ha' & Hl' & Hst & Hr).
    destruct (IH (step s ev) port Ha' Hl') as (Ha'' & Hl'' & Hr'').
    rewrite run_cons. split; [exact Ha''|split; [exact Hl''|]].
    rewrite Hr'', Hr, Hst, <- app_assoc. f_equal.
    destruct ev; cbn; reflexivity.
Qed.

(** A process whose bind has not ended answers the requests that arrive
    after the bind has succeeded. *)
Lemma binding_run evs : forall s port,
  alive s = true -> listener s = Binding port ->
  List.filter is_Respond (trace (run s evs))
  = (List.filter is_Respond (trace s)
     ++ map (fun r => Respond r (app_handle (stack s) r)) (served evs))%list.
Proof.
  induction evs as [|ev evs IH]; intros s port Ha Hl.
  - cbn. rewrite app_nil_r. reflexivity.
  - rewrite run_cons. destruct ev as [o|[|err]|req|env'].
    + pose proof (listener_view_connection s o) as Hv.
      unfold listener_view in Hv. injection Hv as Hl' Ha'.
      rewrite (IH _ port); [|congruence|congruence].
      * rewrite stack_step.
        unfold step. rewrite Ha. cbn [negb].
        destruct (connection s) eqn:Hc;
          [ rewrite on_connection_settled_other by congruence
          | rewrite on_connection_settled_pending by assumption
          | rewrite on_connection_settled_other by congruence
          | rewrite on_connection_settled_other by congruence ];
          cbn [trace]; rewrite ?filter_snoc_if; cbn [is_Respond];
          rewrite ?app_nil_r; reflexivity.
    + assert (Hs : step s (BindEnds Bound)
                   = snd ((set_listener (Listening port) ;; listen_callback port) s)).
      { unfold step, on_bind_end. rewrite Ha, Hl. reflexivity. }
      destruct (listening_run evs (step s (BindEnds Bound)) port)
        as (_ & _ & Hr).
      { rewrite Hs. exact Ha. }
      { rewrite Hs. reflexivity. }
      rewrite Hr, stack_step. f_equal.
      rewrite Hs.
      cbv beta iota delta [mbind Js_bind set_listener listen_callback
                           console_log emit snd].
      cbn [trace]. rewrite filter_snoc_if. cbn. apply app_nil_r.
    + rewrite Respond_idle.
      * cbn [served map]. rewrite app_nil_r.
        unfold step, on_bind_end. rewrite Ha, Hl. cbn [negb].
        destruct listen_error_fatal;
          cbv beta iota delta [mbind Js_bind set_listener listen_callback
                               console_log emit die snd];
          cbn [trace]; rewrite filter_snoc_if; cbn; apply app_nil_r.
      * right. unfold step, on_bind_end. rewrite Ha, Hl. cbn [negb].
        destruct listen_error_fatal;
          cbv beta iota delta [mbind Js_bind set_listener listen_callback
                               console_log emit die snd];
          cbn [listener]; split; intros; discriminate.
    + rewrite (IH _ port).
      * rewrite stack_step. unfold step, on_request.
        rewrite Ha, Hl. reflexivity.
      * unfold step, on_request. rewrite Ha, Hl. exact Ha.
      * unfold step, on_request. rewrite Ha, Hl. exact Hl.
    + assert (Hs : step s (EnvChanges env') = set_env env' s)
        by (unfold step; rewrite Ha; reflexivity).
      rewrite Hs. rewrite (IH _ port); [reflexivity| |]; assumption.
Qed.

(** What either entry point's process answers, from its state at the end
    of the script. *)
Lemma answered_from_start evs s0 port :
  (alive s0 = true -> listener s0 = Binding port) ->
  stack s0 = registered ->
  List.filter is_Respond (trace s0) = [] ->
  List.filter is_Respond (trace (run s0 evs))
  = map (fun r => Respond r (app_handle registered r))
      (if alive s0 then served evs else []).
Proof.
  intros Hl Hst Ht. destruct (alive s0) eqn:Ha.
  - rewrite (binding_run evs s0 port Ha (Hl eq_refl)), Ht, Hst. reflexivity.
  - rewrite Respond_idle by (left; exact Ha). exact Ht.
Qed.

(** X3: in either entry point's process, the requests that are answered are
    exactly those that come in after the bind has succeeded (those after
    the first end of a bind, when that is a success), each once, in the
    order of their arrival, each with what the application answers to it;
    a request that comes in before, or after a failed bind, gets no
    answer; and when Node refused the port at the call of [app.listen], the
    process has ended and nothing is answered at all. *)
Theorem requests_answered_once_bound env evs :
  List.filter is_Respond (trace (run (boot server_main env) evs))
  = map (fun r => Respond r (app_handle registered r))
      (match listen_refuses (PORT (example_env env)) with
       | None => served evs
       | Some _ => []
       end)
  /\ List.filter is_Respond (trace (run (boot backend_server_main env) evs))
     = map (fun r => Respond r (app_handle registered r))
         (match listen_refuses (PORT (example_env env)) with
          | None => served evs
          | Some _ => []
          end).
Proof.
  split.
  - rewrite (answered_from_start evs _ (PORT (example_env env)));
      [| |apply stack_boot|]; rewrite boot_server_main;
      unfold started_server, asked_to_listen;
      destruct (listen_refuses (PORT (example_env env)));
      first [reflexivity|discriminate].
  - rewrite (answered_from_start evs _ (PORT (example_env env)));
      [| |apply stack_boot_backend|]; rewrite boot_backend_server_main;
      unfold started_backend, asked_to_listen;
      destruct (listen_refuses (PORT (example_env env)));
      first [reflexivity|discriminate].
Qed.

End Serving.

Section Composition.
Context `{Platform}.

(** *** Once the server listens *)

(** X4: once the server of either entry point listens, it keeps listening
    on the same port and the process keeps living whatever happens later (a
    connection attempt that fails, another end of a bind, a change of the
    environment), and it answers every request as the application does. *)
Theorem listening_is_stable env evs later port s0 :
  s0 = boot server_main env \/ s0 = boot backend_server_main env ->
  listener (run s0 evs) = Listening port ->
  alive (run s0 (evs ++ later)) = true
  /\ listener (run s0 (evs ++ later)) = Listening port
  /\ (forall r,
        respond (run s0 (evs ++ later)) r = Some (app_handle registered r)).
Proof.
  intros Hmain Hl.
  assert (Ha0 : alive s0 = true).
  { destruct (alive s0) eqn:Hd; [reflexivity|].
    rewrite (run_dead evs _ Hd) in Hl.
    destruct Hmain; subst s0;
      [rewrite (proj1 (proj2 (proj2 (proj2 (boot_server_state env))))) in Hl
      |rewrite (proj1 (proj2 (proj2 (proj2 (boot_backend_state env))))) in Hl];
      unfold asked_to_listen in Hl;
      destruct (listen_refuses (PORT (example_env env))); discriminate. }
  assert (He : ended_by_bind_only (run s0 evs)).
  { apply ended_by_bind_only_run. left. exact Ha0. }
  assert (Hst : stack s0 = registered)
    by (destruct Hmain; subst s0; [apply stack_boot|apply stack_boot_backend]).
  pose proof (listening_alive _ _ He Hl) as Ha.
  destruct (listening_run later _ _ Ha Hl) as (Ha' & Hl' & _).
  rewrite run_app. split; [exact Ha'|split; [exact Hl'|]].
  intros r. unfold respond. rewrite Ha', Hl', !stack_run, Hst. reflexivity.
Qed.

(** *** The entry point without the connector *)

Lemma no_connection_step s ev :
  connection s = NoPromise -> ConnectDB_promise s = NoPromise ->
  connection (step s ev) = NoPromise
  /\ ConnectDB_promise (step s ev) = NoPromise
  /\ (is_connection_event ev = true -> step s ev = s).
Proof.
  intros Hc Hp. unfold step.
  destruct (alive s); cbn [negb];
    [|split; [exact Hc|split; [exact Hp|reflexivity]]].
  destruct ev as [o|b|req|env']; cbn [is_connection_event].
  - rewrite on_connection_settled_other by congruence.
    split; [exact Hc|split; [exact Hp|reflexivity]].
  - unfold on_bind_end.
    destruct (listener s); try destruct b; try destruct listen_error_fatal;
      (split; [exact Hc|split; [exact Hp|discriminate]]).
  - unfold on_request.
    destruct (listener s); (split; [exact Hc|split; [exact Hp|discriminate]]).
  - split; [exact Hc|split; [exact Hp|discriminate]].
Qed.

Lemma no_connection_run evs : forall s,
  connection s = NoPromise -> ConnectDB_promise s = NoPromise ->
  connection (run s evs) = NoPromise
  /\ ConnectDB_promise (run s evs) = NoPromise
  /\ run s (without_connection_events evs) = run s evs.
Proof.
  induction evs as [|ev evs IH]; intros s Hc Hp; [repeat split; assumption|].
  destruct (no_connection_step s ev Hc Hp) as (Hc' & Hp' & Hsame).
  destruct (IH (step s ev) Hc' Hp') as (Hc'' & Hp'' & Hrun).
  split; [exact Hc''|split; [exact Hp''|]].
  unfold without_connection_events in *. cbn [List.filter].
  destruct (is_connection_event ev) eqn:Hev; cbn [negb].
  - rewrite <- (Hsame eq_refl) at 1. exact Hrun.
  - exact Hrun.
Qed.

(** X5: the process of [backend/server.js] never touches the database: it
    holds no promise of a connection attempt, its trace has no call of
    [mongoose.connect] and no line of [ConnectDB], and whatever a database
    does leaves its state as it is: a history and the history without its
    database events end in the same state. *)
Theorem backend_never_touches_the_database env evs :
  let s := run (boot backend_server_main env) evs in
  connection s = NoPromise
  /\ ConnectDB_promise s = NoPromise
  /\ List.filter is_Connect (trace s) = []
  /\ List.filter is_db_log (trace s) = []
  /\ run (boot backend_server_main env) (without_connection_events evs) = s.
Proof.
  cbn zeta.
  destruct (boot_backend_state env) as (Ht & Hc0 & Hp0 & _).
  destruct (no_connection_run evs (boot backend_server_main env) Hc0 Hp0)
    as (Hc & Hp & Hrun).
  assert (Hno : List.filter is_Connect (trace (boot backend_server_main env)) = []
                /\ List.filter is_db_log (trace (boot backend_server_main env))
                   = []).
  { rewrite Ht, !List.filter_app. unfold refusal.
    destruct (listen_refuses (PORT (example_env env))); split; reflexivity. }
  split; [exact Hc|split; [exact Hp|split; [|split; [|exact Hrun]]]].
  - rewrite Connect_run. apply Hno.
  - rewrite db_log_run; [rewrite Hc; reflexivity|].
    rewrite Hc0. apply Hno.
Qed.

(** *** The environment after the start *)

Lemma step_set_env e s ev :
  is_env_change ev = false ->
  step (set_env e s) ev = set_env e (step s ev).
Proof.
  intros Hev. unfold step. cbn [alive set_env].
  destruct (alive s); cbn [negb]; [|reflexivity].
  destruct ev as [o|b|req|env']; [| | |discriminate].
  - unfold on_connection_settled. cbn [connection set_env].
    destruct (connection s); try reflexivity.
    destruct o; reflexivity.
  - unfold on_bind_end. cbn [listener set_env].
    destruct (listener s); try reflexivity.
    destruct b; [reflexivity|]. destruct listen_error_fatal; reflexivity.
  - unfold on_request. cbn [listener set_env].
    destruct (listener s); reflexivity.
Qed.

Lemma set_env_set_env e e' s : set_env e (set_env e' s) = set_env e s.
Proof. reflexivity. Qed.

Lemma env_changes_run evs : forall s s',
  set_env ∅ s = set_env ∅ s' ->
  set_env ∅ (run s evs) = set_env ∅ (run s' (without_env_changes evs)).
Proof.
  induction evs as [|ev evs IH]; intros s s' Hs; [exact Hs|].
  unfold without_env_changes. cbn [List.filter].
  destruct (is_env_change ev) eqn:Hev; cbn [negb].
  - apply IH. destruct ev; try discriminate.
    unfold step. destruct (alive s); cbn [negb]; [|exact Hs].
    rewrite set_env_set_env. exact Hs.
  - rewrite !run_cons. apply IH.
    rewrite <- !(step_set_env _ _ _ Hev). rewrite Hs. reflexivity.
Qed.

(** X6: nothing either entry point's process does depends on the
    environment once it has started: a history and the history without its
    changes of the environment give the same trace (the same log lines, the
    same answers to the same requests), the same listener and the same
    promises. *)
Theorem environment_changes_are_not_observed env evs :
  (let s := run (boot server_main env) evs in
   let s' := run (boot server_main env) (without_env_changes evs) in
   trace s = trace s'
   /\ listener s = listener s'
   /\ alive s = alive s'
   /\ connection s = connection s'
   /\ ConnectDB_promise s = ConnectDB_promise s')
  /\ (let s := run (boot backend_server_main env) evs in
      let s' := run (boot backend_server_main env) (without_env_changes evs) in
      trace s = trace s'
      /\ listener s = listener s'
      /\ alive s = alive s').
Proof.
  cbn zeta.
  pose proof (env_changes_run evs _ _ (eq_refl (set_env ∅ (boot server_main env))))
    as Hn.
  pose proof (env_changes_run evs _ _
                (eq_refl (set_env ∅ (boot backend_server_main env)))) as Hb.
  split; [split; [|split; [|split; [|split]]]|split; [|split]].
  - exact (f_equal trace Hn).
  - exact (f_equal listener Hn).
  - exact (f_equal alive Hn).
  - exact (f_equal connection Hn).
  - exact (f_equal ConnectDB_promise Hn).
  - exact (f_equal trace Hb).
  - exact (f_equal listener Hb).
  - exact (f_equal alive Hb).
Qed.

End Composition.

Section Racing.
Context `{Platform}.

(** X7: the connection attempt and the bind race, and the race is benign:
    from any state, whether the attempt settles before the bind succeeds or
    after, the process ends up with the same listener, the same promises,
    the same router, alive or not alike, and the same effects in its trace
    up to their order. *)
Theorem connection_and_bind_commute s o :
  let s1 := step (step s (ConnectionSettles o)) (BindEnds Bound) in
  let s2 := step (step s (BindEnds Bound)) (ConnectionSettles o) in
  listener s1 = listener s2
  /\ connection s1 = connection s2
  /\ ConnectDB_promise s1 = ConnectDB_promise s2
  /\ alive s1 = alive s2
  /\ stack s1 = stack s2
  /\ Permutation (trace s1) (trace s2).
Proof.
  cbn zeta. unfold step.
  destruct (alive s) eqn:Ha; cbn [negb].
  2: { rewrite Ha. cbn [negb]. repeat split. apply Permutation_refl. }
  destruct (connection s) eqn:Hc; destruct (listener s) eqn:Hl;
    first [ rewrite (on_connection_settled_pending o s) by assumption
          | rewrite (on_connection_settled_other o s) by congruence ];
    unfold on_bind_end; cbn [listener alive]; rewrite ?Ha, ?Hl; cbn [negb];
    cbv beta iota delta [mbind Js_bind set_listener listen_callback
                         console_log emit snd];
    cbn [alive connection listener trace stack ConnectDB_promise process_env
         module_cache]; rewrite ?Ha; cbn [negb];
    first [ rewrite on_connection_settled_pending by (cbn; assumption)
          | rewrite on_connection_settled_other by (cbn; congruence) ];
    cbn [alive connection listener trace stack ConnectDB_promise process_env
         module_cache];
    repeat split; try apply Permutation_refl; try congruence.
  rewrite <- !app_assoc. apply Permutation_app_head. cbn.
  apply perm_swap.
Qed.

End Racing.

Section Answers.
Context `{Platform}.

Lemma error_status_range st : (400 <= error_status st < 600)%nat.
Proof.
  unfold error_status.
  destruct (400 <=? st)%nat eqn:Hlo; destruct (st <? 600)%nat eqn:Hhi; cbn;
    try lia.
  apply Nat.leb_le in Hlo. apply Nat.ltb_lt in Hhi. lia.
Qed.

(** X8: the JSON middleware is registered before the route, so a request
    whose entity it refuses never reaches a handler, whatever its method
    and path, the GET of [/] included: either entry point answers it with
    the framework's error page under the error's status, which is the
    error's own when that is a 4xx or 5xx and 500 otherwise. *)
Theorem refused_entity_is_an_error env r st :
  express_json r = Some st ->
  app_handle (stack (boot server_main env)) r
  = mkResponse (error_status st) ErrorPage
  /\ app_handle (stack (boot backend_server_main env)) r
     = mkResponse (error_status st) ErrorPage
  /\ (400 <= error_status st < 600)%nat.
Proof.
  intros Hj. rewrite stack_boot, stack_boot_backend.
  rewrite (app_handle_refused r st Hj).
  split; [reflexivity|split; [reflexivity|apply error_status_range]].
Qed.

(** X9: the route registered with [app.get] answers HEAD as well: a HEAD
    of [/] gets the status the same request sent as a GET gets (200, or 304
    when it is fresh), and an empty body. *)
Theorem HEAD_root_mirrors_GET env r :
  method r = "HEAD" ->
  path r = "/" ->
  express_json r = None ->
  express_json (as_GET r) = None ->
  let a := app_handle (stack (boot server_main env)) r in
  let g := app_handle (stack (boot server_main env)) (as_GET r) in
  status a = status g
  /\ payload a = Text ""
  /\ (status g = 200 \/ status g = 304).
Proof.
  intros Hm Hp Hj Hg. cbn zeta. rewrite !stack_boot.
  rewrite (app_handle_registered r Hj), (app_handle_registered _ Hg).
  cbn [path method as_GET]. rewrite Hp, path_match_root, Hm. cbn.
  unfold root_handler, res_send, req_fresh.
  cbn [method headers as_GET]. rewrite Hm. cbn.
  destruct (fresh (headers r) (etag_fn "Hi hi")); cbn; auto.
Qed.

(** X10: what the application answers.  To a request the JSON middleware
    lets through it answers 200, 304 or 404, never a 5xx; the body [Hi hi]
    goes out only under status 200, to a request on the route's path with a
    method the route takes other than HEAD; and a 304 carries no body. *)
Theorem answers_of_the_application env r :
  let a := app_handle (stack (boot server_main env)) r in
  (express_json r = None ->
   status a = 200 \/ status a = 304 \/ status a = 404)
  /\ (payload a = Text "Hi hi" ->
      status a = 200
      /\ express_json r = None
      /\ path_match "/" (path r) = true
      /\ handles_method ["get"] (method r) = true
      /\ method r <> "HEAD")
  /\ (status a = 304 -> payload a = Text "").
Proof.
  cbn zeta. rewrite stack_boot.
  destruct (express_json r) as [st|] eqn:Hj.
  - rewrite (app_handle_refused r st Hj). cbn.
    split; [discriminate|split; [discriminate|]].
    pose proof (error_status_range st). intros E. lia.
  - rewrite (app_handle_registered r Hj).
    destruct (path_match "/" (path r)); cbn [negb].
    + destruct (handles_method ["get"] (method r)).
      * unfold root_handler, res_send.
        destruct (req_fresh r 200 (etag_fn "Hi hi")); cbn;
          destruct (String.eqb (method r) "HEAD") eqn:Hh; cbn;
          (split; [auto|split; [|auto; discriminate]]);
          try discriminate.
        intros _. apply String.eqb_neq in Hh. auto.
      * unfold done.
        destruct (String.eqb (method r) "OPTIONS"); cbn;
          (split; [auto|split; discriminate]).
    + unfold done. rewrite andb_false_r. cbn.
      split; [auto|split; discriminate].
Qed.

(** X11: an OPTIONS request on the route's path is not a 404: it is
    answered 200 with the methods the route takes, GET and HEAD. *)
Theorem OPTIONS_root_lists_GET_and_HEAD env r :
  method r = "OPTIONS" ->
  path r = "/" ->
  express_json r = None ->
  app_handle (stack (boot server_main env)) r
  = mkResponse 200 (AllowList ["GET"; "HEAD"])
  /\ app_handle (stack (boot backend_server_main env)) r
     = mkResponse 200 (AllowList ["GET"; "HEAD"]).
Proof.
  intros Hm Hp Hj. rewrite stack_boot, stack_boot_backend.
  rewrite (app_handle_registered r Hj), Hp, path_match_root, Hm.
  cbn. unfold done. rewrite Hm. split; reflexivity.
Qed.

End Answers.

(** * More on the sample platform *)

(** X4 at a server that listens, and then sees the connection attempt fail,
    a stray failure of a bind, a change of the environment and a request. *)
Lemma listening_is_stable_witness :
  alive (@run sample_platform (boot (@server_main sample_platform) sample_env)
           ([BindEnds Bound]
            ++ [ConnectionSettles (Rejected "MongooseServerSelectionError");
                BindEnds (BindError "EADDRINUSE");
                EnvChanges ∅;
                Incoming get_root]))
  = true
  /\ listener
       (@run sample_platform (boot (@server_main sample_platform) sample_env)
          ([BindEnds Bound]
           ++ [ConnectionSettles (Rejected "MongooseServerSelectionError");
               BindEnds (BindError "EADDRINUSE");
               EnvChanges ∅;
               Incoming get_root]))
     = Listening (str "3000").
Proof.
  pose proof (@listening_is_stable sample_platform sample_env
                [BindEnds Bound]
                [ConnectionSettles (Rejected "MongooseServerSelectionError");
                 BindEnds (BindError "EADDRINUSE");
                 EnvChanges ∅;
                 Incoming get_root]
                (str "3000")
                (boot (@server_main sample_platform) sample_env)
                (or_introl eq_refl)
                ltac:(vm_compute; reflexivity)) as W.
  destruct W as (Ha & Hl & _). split; [exact Ha|exact Hl].
Defined.

(** X8 at a POST to an unregistered path whose entity is no JSON: the
    answer is the parser's 400, not the 404 of the path. *)
Lemma refused_entity_witness :
  @app_handle sample_platform
    (stack (boot (@server_main sample_platform) sample_env))
    post_accounts_malformed_json
  = mkResponse (error_status 400) ErrorPage.
Proof.
  pose proof (@refused_entity_is_an_error sample_platform sample_env
                post_accounts_malformed_json 400
                ltac:(vm_compute; reflexivity)) as W.
  destruct W as (Hs & _). exact Hs.
Defined.

(** X9 at a fresh HEAD of [/]: 304, as for the GET, and no body. *)
Lemma HEAD_root_mirrors_GET_witness :
  status (@app_handle sample_platform
            (stack (boot (@server_main sample_platform) sample_env))
            head_root_if_none_match)
  = status (@app_handle sample_platform
              (stack (boot (@server_main sample_platform) sample_env))
              (as_GET head_root_if_none_match))
  /\ payload (@app_handle sample_platform
                (stack (boot (@server_main sample_platform) sample_env))
                head_root_if_none_match)
     = Text "".
Proof.
  pose proof (@HEAD_root_mirrors_GET sample_platform sample_env
                head_root_if_none_match eq_refl eq_refl
                ltac:(vm_compute; reflexivity)
                ltac:(vm_compute; reflexivity)) as W.
  cbv zeta in W. destruct W as (Hs & Hp & _). split; [exact Hs|exact Hp].
Defined.

(** X11 at an OPTIONS of [/] without headers. *)
Lemma OPTIONS_root_witness :
  @app_handle sample_platform
    (stack (boot (@server_main sample_platform) sample_env)) options_root
  = mkResponse 200 (AllowList ["GET"; "HEAD"]).
Proof.
  pose proof (@OPTIONS_root_lists_GET_and_HEAD sample_platform sample_env
                options_root eq_refl eq_refl
                ltac:(vm_compute; reflexivity)) as W.
  destruct W as (Hs & _). exact Hs.
Defined.

(** A start without [PORT]: the callback's line names [undefined]. *)
Example running_line_without_port :
  List.filter is_listen_log
    (trace (@run sample_platform (boot (@server_main sample_platform) ∅)
              [BindEnds Bound]))
  = [Log "Server is running on undefined"].
Proof. vm_compute. reflexivity. Qed.

(** A request before the bind has ended gets no answer; those after it has
    succeeded are answered, the connection attempt settled or not. *)
Example served_after_the_bind :
  served [Incoming get_accounts; ConnectionSettles Resolved; BindEnds Bound;
          Incoming get_root; BindEnds (BindError "EADDRINUSE");
          Incoming head_root]
  = [get_root; head_root].
Proof. reflexivity. Qed.
